(** * Bucatini Artix-7 SerDes backend: a shallow embedding and its properties

    The development follows [bucatini/backends/artix7.py].  The gateware is
    written in nMigen; every [Elaboratable] is embedded as

    - a record of its registers (the signals driven from a synchronous
      domain, [m.d.ss += ...]),
    - a function computing its combinational signals ([m.d.comb += ...])
      from the registers and the inputs of the current tick, and
    - a function giving the registers after one clock edge of a domain.

    The configuration-time solver [GTPQuadPLL.compute_config] is ordinary
    Python and is embedded as a function. *)

From Stdlib Require Import ZArith List Bool Lia.
From Stdlib Require Import Floats Uint63.
Import ListNotations.

Local Open Scope Z_scope.

(** ** Python control flow *)

(** A [for] loop whose body may [return]: the loop yields the value of the
    first iteration that returns, and [None] when it runs to its end. *)
Fixpoint for_return {A R : Type} (xs : list A) (body : A -> option R) : option R :=
  match xs with
  | [] => None
  | x :: rest =>
      match body x with
      | Some r => Some r
      | None => for_return rest body
      end
  end.

(** ** nMigen primitives used by the backend *)

Module Nmigen.

(** Clock domains named in the backend.  [sync] is nMigen's default
    domain; the backend drives its registers from [ss], [tx] and [rx]. *)
Inductive Domain : Type := sync | ss | tx | rx.

Definition Domain_eqb (a b : Domain) : bool :=
  match a, b with
  | sync, sync | ss, ss | tx, tx | rx, rx => true
  | _, _ => false
  end.

(** The controls of a [ResetInserter]: a dictionary from domains to the
    value of their reset signal in the current tick. *)
Definition Controls : Type := list (Domain * bool).

(** [ResetInserter({domain: signal, ...})]. *)
Definition ResetInserter_dict (controls : list (Domain * bool)) : Controls :=
  controls.

(** [ResetInserter(signal)]: nMigen's [ControlInserter.__init__] turns a
    control that is not a dictionary into [OrderedDict(sync=controls)]. *)
Definition ResetInserter (signal : bool) : Controls :=
  ResetInserter_dict [(sync, signal)].

Definition reset_asserted (controls : Controls) (domain : Domain) : bool :=
  existsb (fun c => Domain_eqb (fst c) domain && snd c) controls.

(** The value a register driven from [domain] takes at the clock edge:
    the inserted reset overrides the assigned value, for the domains the
    inserter controls and the signals that are not [reset_less]. *)
Definition register {A : Type} (controls : Controls) (domain : Domain)
           (reset_less : bool) (reset next : A) : A :=
  if negb reset_less && reset_asserted controls domain then reset else next.

(** Assignment to a [width]-bit unsigned signal keeps the low bits. *)
Definition trunc (width : Z) (value : Z) : Z := value mod 2 ^ width.

(** [bits_for(n)] for [n >= 0]; nMigen gives one bit to zero. *)
Definition bits_for (n : Z) : Z :=
  if 0 <? n then Z.log2_up (n + 1) else 1.

(** The width of [Signal(range(stop))], [stop > 0]:
    [max(bits_for(start), bits_for(stop - step))]. *)
Definition range_width (stop : Z) : Z :=
  Z.max (bits_for 0) (bits_for (stop - 1)).

(** [Repl(bit, count)]: [count] copies of one bit. *)
Fixpoint Repl (bit : bool) (count : nat) : Z :=
  match count with
  | O => 0
  | S k => Z.b2z bit + 2 * Repl bit k
  end.

(** [value.word_select(i, width)] read, and assignment to that slice. *)
Definition word_select (value i width : Z) : Z :=
  Z.land (Z.shiftr value (i * width)) (Z.ones width).

Definition assign_word (value i width new : Z) : Z :=
  Z.lor (Z.ldiff value (Z.shiftl (Z.ones width) (i * width)))
        (Z.shiftl (Z.land new (Z.ones width)) (i * width)).

(** Assignment to the single bit [value[i]]. *)
Definition assign_bit (value i : Z) (new : bool) : Z :=
  if new then Z.setbit value i else Z.clearbit value i.

(** [range(n)] *)
Definition range (n : nat) : list Z := map Z.of_nat (seq 0 n).

End Nmigen.

(** [FFSynchronizer(i, o, o_domain=...)]: two [reset_less] flops in the
    output domain; [o] is the last one. *)
Module FFSynchronizer.
Import Nmigen.

Record state : Type := mk { stage0 : bool; stage1 : bool }.

Definition init : state := mk false false.

Definition o (s : state) : bool := stage1 s.

Definition tick (controls : Controls) (o_domain : Domain) (s : state) (i : bool) : state :=
  mk (register controls o_domain true false i)
     (register controls o_domain true false (stage0 s)).

End FFSynchronizer.

(** ** WaitTimer *)

Module WaitTimer.
Import Nmigen.

(** [count = Signal(range(self._t + 1), reset=self._t)] *)
Record state : Type := mk { count : Z }.

Definition width (t : Z) : Z := range_width (t + 1).

Definition reset (t : Z) : state := mk t.

(** [m.d.comb += self.done.eq(count == 0)] *)
Definition done (s : state) : bool := count s =? 0.

(** The next value assigned to [count] in the [ss] domain. *)
Definition next_count (t : Z) (wait : bool) (s : state) : Z :=
  if wait then
    if negb (done s) then trunc (width t) (count s + 1) else count s
  else t.

Definition tick_with (controls : Controls) (t : Z) (wait : bool) (s : state) : state :=
  mk (register controls ss false t (next_count t wait s)).

(** A timer on its own, with no reset inserted. *)
Definition tick (t : Z) (wait : bool) (s : state) : state :=
  tick_with [] t wait s.

(** The timer after the given values of [wait], one per tick. *)
Definition run (t : Z) (waits : list bool) (s : state) : state :=
  fold_left (fun s wait => tick t wait s) waits s.

End WaitTimer.

(** ** DRPInterface and DRPMux *)

Module DRP.

(** The fields a controller drives ([DIR_C_TO_P]): 9-bit address and
    16-bit data by default. *)
Record request : Type := mkRequest {
  clk : bool;
  en : bool;
  we : bool;
  addr : Z;
  di : Z
}.

(** The fields the peripheral drives back ([DIR_P_TO_C]). *)
Record response : Type := mkResponse {
  rdy : bool;
  do : Z
}.

(** Signals nothing drives keep their reset value, zero. *)
Definition idle_request : request := mkRequest false false false 0 0.
Definition idle_response : response := mkResponse false 0.

End DRP.

Module DRPMux.
Import Nmigen DRP.

(** [with m.Switch(self.sel): for i, interface in enumerate(...):
    with m.Case(i): ...]: the body of the case whose index equals the
    selector, if there is one. *)
Fixpoint switch {A : Type} (sel : Z) (i : Z) (cases : list A) : option A :=
  match cases with
  | [] => None
  | c :: rest => if sel =? i then Some c else switch sel (i + 1) rest
  end.

(** [interface.connect(self)] inside case [i] drives the mux's own
    [clk/en/we/addr/di] from the interface; with no matching case they
    keep their reset values. *)
Definition bus_request (sel : Z) (interfaces : list request) : request :=
  match switch sel 0 interfaces with
  | Some r => r
  | None => idle_request
  end.

(** ... and drives the interface's [rdy/do] from the mux's.  The result
    lists what each of the [n] registered interfaces observes. *)
Fixpoint responses_from (sel : Z) (i : Z) (n : nat) (bus : response)
  : list response :=
  match n with
  | O => []
  | S k =>
      (if sel =? i then bus else idle_response)
        :: responses_from sel (i + 1) k bus
  end.

Definition responses (sel : Z) (interfaces : list request) (bus : response)
  : list response :=
  responses_from sel 0 (length interfaces) bus.

(** [elaborate]: fails on [assert len(self.interfaces) <= 16]; [sel] is
    [Signal(4)]. *)
Definition elaborate (sel : Z) (interfaces : list request) (bus : response)
  : option (request * list response) :=
  if (length interfaces <=? 16)%nat then
    Some (bus_request (trunc 4 sel) interfaces,
          responses (trunc 4 sel) interfaces bus)
  else None.

(** Interface [i] of a mux with [n] interfaces is connected under [sel]:
    whatever the interfaces and the bus carry, the bus sees that
    interface's request and the interface sees the bus's response. *)
Definition connected (n : nat) (sel : Z) (i : nat) : Prop :=
  forall interfaces bus,
    length interfaces = n ->
    bus_request sel interfaces = nth i interfaces idle_request /\
    nth i (responses sel interfaces bus) idle_response = bus.

End DRPMux.

(** ** GTPTXInit *)

Module GTPTXInit.
Import Nmigen.

Inductive fsm_state : Type :=
| POWER_DOWN | DRP | WAIT_PLL_RESET | WAIT_INIT_DELAY | WAIT_GTP_RESET | READY.

(** The thresholds of the two timers, [int(500e-9*ss_clock_frequency)]
    and [int(1e-3*ss_clock_frequency)], as the constructor computes
    them. *)
Record params : Type := mkParams {
  init_delay_t : Z;
  watchdog_t : Z
}.

(** Input ports. [drp_done] is [Signal(reset=1)]. *)
Record inputs : Type := mkInputs {
  restart : bool;
  plllock : bool;
  txresetdone : bool;
  txdlysresetdone : bool;
  txphinitdone : bool;
  txphaligndone : bool;
  drp_done : bool
}.

(** Registers, all driven from [ss].  The fields named [self_*] are the
    output ports [self.gttxreset] ... [self.txuserrdy]. *)
Record state : Type := mkState {
  fsm : fsm_state;
  self_gttxreset : bool;
  self_gttxpd : bool;
  self_txdlysreset : bool;
  self_txphinit : bool;
  self_txphalign : bool;
  self_txdlyen : bool;
  self_txuserrdy : bool;
  plllock_sync : FFSynchronizer.state;
  txresetdone_sync : FFSynchronizer.state;
  txdlysresetdone_sync : FFSynchronizer.state;
  txphinitdone_sync : FFSynchronizer.state;
  txphaligndone_sync : FFSynchronizer.state;
  txphaligndone_r : bool;
  init_delay : WaitTimer.state;
  watchdog : WaitTimer.state
}.

(** Combinational signals: the FSM's decisions (the local signals
    [gttxreset] ... [txuserrdy]), the ports driven combinationally, and
    the FSM's next state. *)
Record comb : Type := mkComb {
  gttxreset : bool;
  gttxpd : bool;
  txdlysreset : bool;
  txphinit : bool;
  txphalign : bool;
  txdlyen : bool;
  txuserrdy : bool;
  pllreset : bool;
  drp_start : bool;
  done : bool;
  next : fsm_state
}.

Definition reset_state (p : params) : state :=
  mkState POWER_DOWN false false false false false false false
          FFSynchronizer.init FFSynchronizer.init FFSynchronizer.init
          FFSynchronizer.init FFSynchronizer.init
          true
          (WaitTimer.reset (init_delay_t p)) (WaitTimer.reset (watchdog_t p)).

(** [with m.FSM(domain="ss")] *)
Definition fsm_comb (s : state) (i : inputs) : comb :=
  match fsm s with
  | POWER_DOWN =>
      {| gttxreset := true; gttxpd := true; txdlysreset := false;
         txphinit := false; txphalign := false; txdlyen := false;
         txuserrdy := false; pllreset := true; drp_start := false;
         done := false;
         next := DRP |}
  | DRP =>
      {| gttxreset := true; gttxpd := false; txdlysreset := false;
         txphinit := false; txphalign := false; txdlyen := false;
         txuserrdy := false; pllreset := true; drp_start := true;
         done := false;
         next := if drp_done i then WAIT_PLL_RESET else DRP |}
  | WAIT_PLL_RESET =>
      {| gttxreset := true; gttxpd := false; txdlysreset := false;
         txphinit := false; txphalign := false; txdlyen := false;
         txuserrdy := false; pllreset := false; drp_start := false;
         done := false;
         next := if FFSynchronizer.o (plllock_sync s)
                 then WAIT_INIT_DELAY else WAIT_PLL_RESET |}
  | WAIT_INIT_DELAY =>
      {| gttxreset := true; gttxpd := false; txdlysreset := false;
         txphinit := false; txphalign := false; txdlyen := false;
         txuserrdy := false; pllreset := false; drp_start := false;
         done := false;
         next := if WaitTimer.done (init_delay s)
                 then WAIT_GTP_RESET else WAIT_INIT_DELAY |}
  | WAIT_GTP_RESET =>
      {| gttxreset := false; gttxpd := false; txdlysreset := false;
         txphinit := false; txphalign := false; txdlyen := false;
         txuserrdy := true; pllreset := false; drp_start := false;
         done := false;
         next := if FFSynchronizer.o (txresetdone_sync s)
                 then READY else WAIT_GTP_RESET |}
  | READY =>
      {| gttxreset := false; gttxpd := false; txdlysreset := false;
         txphinit := false; txphalign := false; txdlyen := true;
         txuserrdy := true; pllreset := false; drp_start := false;
         done := true;
         next := if restart i then POWER_DOWN else READY |}
  end.

(** [txphaligndone & ~txphaligndone_r] *)
Definition txphaligndone_rising (s : state) : bool :=
  FFSynchronizer.o (txphaligndone_sync s) && negb (txphaligndone_r s).

(** [reset_self = self.restart | watchdog.done] *)
Definition reset_self (s : state) (i : inputs) : bool :=
  restart i || WaitTimer.done (watchdog s).

(** [watchdog.wait.eq(~reset_self & ~self.done)] *)
Definition watchdog_wait (s : state) (i : inputs) : bool :=
  negb (reset_self s i) && negb (done (fsm_comb s i)).

(** One clock edge of [ss], for the module wrapped by a reset inserter
    given as a function of the value of [reset_self]. *)
Definition tick_with (inserter : bool -> Controls) (p : params)
           (s : state) (i : inputs) : state :=
  let c := fsm_comb s i in
  let controls := inserter (reset_self s i) in
  {| fsm := register controls ss false POWER_DOWN (next c);
     self_gttxreset := register controls ss false false (gttxreset c);
     self_gttxpd := register controls ss false false (gttxpd c);
     self_txdlysreset := register controls ss false false (txdlysreset c);
     self_txphinit := register controls ss false false (txphinit c);
     self_txphalign := register controls ss false false (txphalign c);
     self_txdlyen := register controls ss false false (txdlyen c);
     self_txuserrdy := register controls ss false false (txuserrdy c);
     plllock_sync := FFSynchronizer.tick controls ss (plllock_sync s) (plllock i);
     txresetdone_sync :=
       FFSynchronizer.tick controls ss (txresetdone_sync s) (txresetdone i);
     txdlysresetdone_sync :=
       FFSynchronizer.tick controls ss (txdlysresetdone_sync s) (txdlysresetdone i);
     txphinitdone_sync :=
       FFSynchronizer.tick controls ss (txphinitdone_sync s) (txphinitdone i);
     txphaligndone_sync :=
       FFSynchronizer.tick controls ss (txphaligndone_sync s) (txphaligndone i);
     txphaligndone_r :=
       register controls ss false true (FFSynchronizer.o (txphaligndone_sync s));
     init_delay :=
       WaitTimer.tick_with controls (init_delay_t p) true (init_delay s);
     watchdog :=
       WaitTimer.tick_with controls (watchdog_t p) (watchdog_wait s i) (watchdog s) |}.

(** [return ResetInserter(reset_self)(m)] *)
Definition tick (p : params) (s : state) (i : inputs) : state :=
  tick_with ResetInserter p s i.

Definition run (p : params) (trace : list inputs) (s : state) : state :=
  fold_left (tick p) trace s.

End GTPTXInit.

(** ** GTPRXInit *)

Module GTPRXInit.
Import Nmigen.

Inductive fsm_state : Type :=
| POWER_DOWN | DRP_READ_ISSUE | DRP_READ_ISSUE_POST | DRP_READ_WAIT
| DRP_MOD_ISSUE | DRP_MOD_WAIT | WAIT_PMARST_FALL
| DRP_RESTORE_ISSUE | DRP_RESTORE_WAIT | WAIT_GTP_RESET | READY.

(** [int(500e-9*ss_clock_frequency)] and [int(4e-3*ss_clock_frequency)]. *)
Record params : Type := mkParams {
  init_delay_t : Z;
  watchdog_t : Z
}.

(** Input ports; [drp] is what the peripheral side of [self.drp] drives. *)
Record inputs : Type := mkInputs {
  restart : bool;
  plllock : bool;
  rxresetdone : bool;
  rxdlysresetdone : bool;
  rxsyncdone : bool;
  rxpmaresetdone : bool;
  drp : DRP.response
}.

(** Registers.  All are driven from [ss] but the synchronizer of
    [rxpmaresetdone], built without [o_domain] and so in [sync]. *)
Record state : Type := mkState {
  fsm : fsm_state;
  drpvalue : Z;
  rxpmaresetdone_sync : FFSynchronizer.state;
  rxpmaresetdone_r : bool;
  self_gtrxreset : bool;
  self_gtrxpd : bool;
  self_rxdlysreset : bool;
  self_rxphalign : bool;
  self_rxuserrdy : bool;
  plllock_sync : FFSynchronizer.state;
  rxresetdone_sync : FFSynchronizer.state;
  rxdlysresetdone_sync : FFSynchronizer.state;
  rxsyncdone_sync : FFSynchronizer.state;
  init_delay : WaitTimer.state;
  watchdog : WaitTimer.state
}.

Record comb : Type := mkComb {
  gtrxreset : bool;
  gtrxpd : bool;
  rxdlysreset : bool;
  rxphalign : bool;
  rxuserrdy : bool;
  drpmask : bool;
  drp_en : bool;
  drp_we : bool;
  done : bool;
  next : fsm_state;
  next_drpvalue : Z
}.

Definition reset_state (p : params) : state :=
  mkState POWER_DOWN 0 FFSynchronizer.init false
          false false false false false
          FFSynchronizer.init FFSynchronizer.init FFSynchronizer.init
          FFSynchronizer.init
          (WaitTimer.reset (init_delay_t p)) (WaitTimer.reset (watchdog_t p)).

(** [with m.FSM(domain="ss")]; [next_drpvalue] is the value [m.d.ss]
    assigns to [drpvalue] (its own when nothing is assigned). *)
Definition fsm_comb (s : state) (i : inputs) : comb :=
  let rxpmaresetdone := FFSynchronizer.o (rxpmaresetdone_sync s) in
  match fsm s with
  | POWER_DOWN =>
      {| gtrxreset := true; gtrxpd := true; rxdlysreset := false;
         rxphalign := false; rxuserrdy := false; drpmask := false;
         drp_en := false; drp_we := false; done := false;
         next := DRP_READ_ISSUE; next_drpvalue := drpvalue s |}
  | DRP_READ_ISSUE =>
      {| gtrxreset := true; gtrxpd := false; rxdlysreset := false;
         rxphalign := false; rxuserrdy := false; drpmask := false;
         drp_en := false; drp_we := false; done := false;
         next := if WaitTimer.done (init_delay s)
                 then DRP_READ_ISSUE_POST else DRP_READ_ISSUE;
         next_drpvalue := drpvalue s |}
  | DRP_READ_ISSUE_POST =>
      {| gtrxreset := true; gtrxpd := false; rxdlysreset := false;
         rxphalign := false; rxuserrdy := false; drpmask := false;
         drp_en := true; drp_we := false; done := false;
         next := DRP_READ_WAIT; next_drpvalue := drpvalue s |}
  | DRP_READ_WAIT =>
      {| gtrxreset := true; gtrxpd := false; rxdlysreset := false;
         rxphalign := false; rxuserrdy := false; drpmask := false;
         drp_en := false; drp_we := false; done := false;
         next := if DRP.rdy (drp i) then DRP_MOD_ISSUE else DRP_READ_WAIT;
         next_drpvalue :=
           if DRP.rdy (drp i) then trunc 16 (DRP.do (drp i)) else drpvalue s |}
  | DRP_MOD_ISSUE =>
      {| gtrxreset := true; gtrxpd := false; rxdlysreset := false;
         rxphalign := false; rxuserrdy := false; drpmask := true;
         drp_en := true; drp_we := true; done := false;
         next := DRP_MOD_WAIT; next_drpvalue := drpvalue s |}
  | DRP_MOD_WAIT =>
      {| gtrxreset := true; gtrxpd := false; rxdlysreset := false;
         rxphalign := false; rxuserrdy := false; drpmask := false;
         drp_en := false; drp_we := false; done := false;
         next := if DRP.rdy (drp i) then WAIT_PMARST_FALL else DRP_MOD_WAIT;
         next_drpvalue := drpvalue s |}
  | WAIT_PMARST_FALL =>
      {| gtrxreset := false; gtrxpd := false; rxdlysreset := false;
         rxphalign := false; rxuserrdy := true; drpmask := false;
         drp_en := false; drp_we := false; done := false;
         next := if rxpmaresetdone_r s && negb rxpmaresetdone
                 then DRP_RESTORE_ISSUE else WAIT_PMARST_FALL;
         next_drpvalue := drpvalue s |}
  | DRP_RESTORE_ISSUE =>
      {| gtrxreset := false; gtrxpd := false; rxdlysreset := false;
         rxphalign := false; rxuserrdy := true; drpmask := false;
         drp_en := true; drp_we := true; done := false;
         next := DRP_RESTORE_WAIT; next_drpvalue := drpvalue s |}
  | DRP_RESTORE_WAIT =>
      {| gtrxreset := false; gtrxpd := false; rxdlysreset := false;
         rxphalign := false; rxuserrdy := true; drpmask := false;
         drp_en := false; drp_we := false; done := false;
         next := if DRP.rdy (drp i) then WAIT_GTP_RESET else DRP_RESTORE_WAIT;
         next_drpvalue := drpvalue s |}
  | WAIT_GTP_RESET =>
      {| gtrxreset := false; gtrxpd := false; rxdlysreset := false;
         rxphalign := false; rxuserrdy := true; drpmask := false;
         drp_en := false; drp_we := false; done := false;
         next := if FFSynchronizer.o (rxresetdone_sync s)
                 then READY else WAIT_GTP_RESET;
         next_drpvalue := drpvalue s |}
  | READY =>
      {| gtrxreset := false; gtrxpd := false; rxdlysreset := false;
         rxphalign := false; rxuserrdy := true; drpmask := false;
         drp_en := false; drp_we := false; done := true;
         next := if restart i then POWER_DOWN else READY;
         next_drpvalue := drpvalue s |}
  end.

(** What the controller drives on [self.drp]: the address is constant,
    the data is [drpvalue], masked while [drpmask] is set. *)
Definition drp_request (clock : bool) (s : state) (i : inputs) : DRP.request :=
  let c := fsm_comb s i in
  {| DRP.clk := clock;
     DRP.en := drp_en c;
     DRP.we := drp_we c;
     DRP.addr := 0x011;
     DRP.di := if drpmask c then Z.land (drpvalue s) 0xf7ff else drpvalue s |}.

(** [reset_self = watchdog.done | self.restart] *)
Definition reset_self (s : state) (i : inputs) : bool :=
  WaitTimer.done (watchdog s) || restart i.

Definition watchdog_wait (s : state) (i : inputs) : bool :=
  negb (reset_self s i) && negb (done (fsm_comb s i)).

(** One clock edge of [ss]. *)
Definition tick_with (inserter : bool -> Controls) (p : params)
           (s : state) (i : inputs) : state :=
  let c := fsm_comb s i in
  let controls := inserter (reset_self s i) in
  {| fsm := register controls ss false POWER_DOWN (next c);
     drpvalue := register controls ss false 0 (next_drpvalue c);
     rxpmaresetdone_sync := rxpmaresetdone_sync s;
     rxpmaresetdone_r :=
       register controls ss false false (FFSynchronizer.o (rxpmaresetdone_sync s));
     self_gtrxreset := register controls ss false false (gtrxreset c);
     self_gtrxpd := register controls ss false false (gtrxpd c);
     self_rxdlysreset := register controls ss false false (rxdlysreset c);
     self_rxphalign := register controls ss false false (rxphalign c);
     self_rxuserrdy := register controls ss false false (rxuserrdy c);
     plllock_sync := FFSynchronizer.tick controls ss (plllock_sync s) (plllock i);
     rxresetdone_sync :=
       FFSynchronizer.tick controls ss (rxresetdone_sync s) (rxresetdone i);
     rxdlysresetdone_sync :=
       FFSynchronizer.tick controls ss (rxdlysresetdone_sync s) (rxdlysresetdone i);
     rxsyncdone_sync :=
       FFSynchronizer.tick controls ss (rxsyncdone_sync s) (rxsyncdone i);
     init_delay :=
       WaitTimer.tick_with controls (init_delay_t p) true (init_delay s);
     watchdog :=
       WaitTimer.tick_with controls (watchdog_t p) (watchdog_wait s i) (watchdog s) |}.

(** One clock edge of [sync]: only the synchronizer of [rxpmaresetdone]
    is clocked by it. *)
Definition tick_sync_with (inserter : bool -> Controls)
           (s : state) (i : inputs) : state :=
  let controls := inserter (reset_self s i) in
  {| fsm := fsm s;
     drpvalue := drpvalue s;
     rxpmaresetdone_sync :=
       FFSynchronizer.tick controls sync (rxpmaresetdone_sync s) (rxpmaresetdone i);
     rxpmaresetdone_r := rxpmaresetdone_r s;
     self_gtrxreset := self_gtrxreset s;
     self_gtrxpd := self_gtrxpd s;
     self_rxdlysreset := self_rxdlysreset s;
     self_rxphalign := self_rxphalign s;
     self_rxuserrdy := self_rxuserrdy s;
     plllock_sync := plllock_sync s;
     rxresetdone_sync := rxresetdone_sync s;
     rxdlysresetdone_sync := rxdlysresetdone_sync s;
     rxsyncdone_sync := rxsyncdone_sync s;
     init_delay := init_delay s;
     watchdog := watchdog s |}.

(** [return ResetInserter(reset_self)(m)] *)
Definition tick (p : params) (s : state) (i : inputs) : state :=
  tick_with ResetInserter p s i.

Definition tick_sync (s : state) (i : inputs) : state :=
  tick_sync_with ResetInserter s i.

(** The two domains are clocked independently: a run is a sequence of
    clock edges, each of one domain, with the inputs at that edge. *)
Inductive edge : Type :=
| Edge_ss (i : inputs)
| Edge_sync (i : inputs).

Definition step (p : params) (s : state) (e : edge) : state :=
  match e with
  | Edge_ss i => tick p s i
  | Edge_sync i => tick_sync s i
  end.

Definition run (p : params) (trace : list edge) (s : state) : state :=
  fold_left (step p) trace s.




End GTPRXInit.

(** ** GTPQuadPLL.compute_config *)

Module GTPQuadPLL.

(** The dictionary returned by [compute_config]. *)
Record RateConfig : Type := mkRateConfig {
  n1 : Z;
  n2 : Z;
  m : Z;
  d : Z;
  vco_freq : float;
  clkin : float;
  linerate : float
}.

(** [compute_config] either returns a dictionary or raises [ValueError];
    the exception carries the two numbers its message is formatted from,
    [refclk_freq/1e6] and [linerate/1e9]. *)
Inductive outcome : Type :=
| Returns (config : RateConfig)
| ValueError (refclk_MHz linerate_Gbps : float).

(** The frequencies are Python floats, IEEE binary64 numbers, and the
    arithmetic and the comparisons are those of binary64
    ([LunaArtix7SerDes] passes [5e9]; an [int] frequency below 2^53 is the
    same number).  An [int] operand of a float operation is converted to
    the double of the same value. *)
Definition int_to_float (n : Z) : float := PrimFloat.of_uint63 (Uint63.of_Z n).

(** [refclk_freq*(n1*n2)/m] *)
Definition vco_of (refclk_freq : float) (n1 n2 m : Z) : float :=
  (refclk_freq * int_to_float (n1 * n2) / int_to_float m)%float.

(** [vco_freq*2/d] *)
Definition linerate_of (vco : float) (d : Z) : float :=
  (vco * int_to_float 2 / int_to_float d)%float.

(** [1.6e9 <= vco_freq <= 3.3e9] *)
Definition vco_in_range (vco : float) : bool :=
  PrimFloat.leb 1.6e9 vco && PrimFloat.leb vco 3.3e9.

Definition search (refclk_freq linerate : float) : option RateConfig :=
  for_return [4; 5] (fun n1 =>
    for_return [1; 2; 3; 4; 5] (fun n2 =>
      for_return [1; 2] (fun m =>
        let vco_freq := vco_of refclk_freq n1 n2 m in
        if vco_in_range vco_freq then
          for_return [1; 2; 4; 8; 16] (fun d =>
            let current_linerate := linerate_of vco_freq d in
            if PrimFloat.eqb current_linerate linerate then
              Some (mkRateConfig n1 n2 m d vco_freq refclk_freq linerate)
            else None)
        else None))).

Definition compute_config (refclk_freq linerate : float) : outcome :=
  match search refclk_freq linerate with
  | Some config => Returns config
  | None => ValueError (refclk_freq / 1e6)%float (linerate / 1e9)%float
  end.

(** The search grid in the order the loops visit it: [n1] outermost, then
    [n2], then [m], then [d]. *)
Definition grid : list (Z * Z * Z * Z) :=
  flat_map (fun n1 =>
    flat_map (fun n2 =>
      flat_map (fun m =>
        map (fun d => (n1, n2, m, d)) [1; 2; 4; 8; 16])
        [1; 2])
      [1; 2; 3; 4; 5])
    [4; 5].

(** The two constraints on a grid point, as the code tests them, as a
    decision and as a proposition. *)
Definition feasibleb (refclk_freq linerate : float) (c : Z * Z * Z * Z) : bool :=
  let '(n1, n2, m, d) := c in
  vco_in_range (vco_of refclk_freq n1 n2 m)
  && PrimFloat.eqb (linerate_of (vco_of refclk_freq n1 n2 m) d) linerate.

Definition feasible (refclk_freq linerate : float) (c : Z * Z * Z * Z) : Prop :=
  let '(n1, n2, m, d) := c in
  PrimFloat.leb 1.6e9 (vco_of refclk_freq n1 n2 m) = true
  /\ PrimFloat.leb (vco_of refclk_freq n1 n2 m) 3.3e9 = true
  /\ PrimFloat.eqb (linerate_of (vco_of refclk_freq n1 n2 m) d) linerate = true.

Definition config_at (refclk_freq linerate : float) (c : Z * Z * Z * Z) : RateConfig :=
  let '(n1, n2, m, d) := c in
  mkRateConfig n1 n2 m d (vco_of refclk_freq n1 n2 m) refclk_freq linerate.

Definition point_of (config : RateConfig) : Z * Z * Z * Z :=
  (n1 config, n2 config, m config, d config).

(** Lexicographic order on grid points. *)
Definition lex_lt (a b : Z * Z * Z * Z) : Prop :=
  let '(a1, a2, a3, a4) := a in
  let '(b1, b2, b3, b4) := b in
  a1 < b1 \/ (a1 = b1 /\ (a2 < b2 \/ (a2 = b2 /\ (a3 < b3 \/ (a3 = b3 /\ a4 < b4))))).

Definition lex_ltb (a b : Z * Z * Z * Z) : bool :=
  let '(a1, a2, a3, a4) := a in
  let '(b1, b2, b3, b4) := b in
  (a1 <? b1) || ((a1 =? b1) && ((a2 <? b2) || ((a2 =? b2) &&
    ((a3 <? b3) || ((a3 =? b3) && (a4 <? b4)))))).

Fixpoint ascendingb (l : list (Z * Z * Z * Z)) : bool :=
  match l with
  | [] => true
  | c :: rest => forallb (lex_ltb c) rest && ascendingb rest
  end.

End GTPQuadPLL.

(** ** GTP *)

Module GTP.
Import Nmigen.

Definition data_width : Z := 20.
Definition nwords : nat := Z.to_nat (data_width / 10).

Record params : Type := mkParams {
  tx_params : GTPTXInit.params;
  rx_params : GTPRXInit.params
}.

(** The ports of the module and the outputs of the [GTPE2_CHANNEL]
    instance and of the PLL that the modelled logic reads. *)
Record inputs : Type := mkInputs {
  tx_enable : bool;
  rx_enable : bool;
  tx_gpio_en : bool;
  tx_gpio : bool;
  sink_data : Z;
  sink_ctrl : Z;
  drp : DRP.request;
  ss_clock : bool;
  qpll_lock : bool;
  TXRESETDONE : bool;
  TXDLYSRESETDONE : bool;
  TXPHINITDONE : bool;
  TXPHALIGNDONE : bool;
  RXRESETDONE : bool;
  RXDLYSRESETDONE : bool;
  RXSYNCDONE : bool;
  RXPMARESETDONE : bool;
  DRPRDY : bool;
  DRPDO : Z;
  rx_data : Z;
  rx_ctrl : Z;
  rx_code_error : Z
}.

Record state : Type := mkState {
  tx_init : GTPTXInit.state;
  rx_init : GTPRXInit.state;
  tx_gpio_en_sync : FFSynchronizer.state;
  tx_gpio_sync : FFSynchronizer.state
}.

Definition reset_state (p : params) : state :=
  mkState (GTPTXInit.reset_state (tx_params p))
          (GTPRXInit.reset_state (rx_params p))
          FFSynchronizer.init FFSynchronizer.init.

(** [tx_init.restart.eq(~self.tx_enable)], [tx_init.plllock.eq(qpll.lock)];
    nothing drives [tx_init.drp_done], which keeps its reset value 1. *)
Definition tx_init_inputs (i : inputs) : GTPTXInit.inputs :=
  {| GTPTXInit.restart := negb (tx_enable i);
     GTPTXInit.plllock := qpll_lock i;
     GTPTXInit.txresetdone := TXRESETDONE i;
     GTPTXInit.txdlysresetdone := TXDLYSRESETDONE i;
     GTPTXInit.txphinitdone := TXPHINITDONE i;
     GTPTXInit.txphaligndone := TXPHALIGNDONE i;
     GTPTXInit.drp_done := true |}.

(** Nothing drives [drp_mux.sel]: it keeps its reset value. *)
Definition drp_mux_sel : Z := 0.

(** The mux has two interfaces, [rx_init.drp] then [self.drp], and
    faces the channel's DRP port. *)
Definition drp_responses (i : inputs) : list DRP.response :=
  DRPMux.responses_from drp_mux_sel 0 2 (DRP.mkResponse (DRPRDY i) (DRPDO i)).

(** [rx_init.restart.eq(~self.rx_enable)] *)
Definition rx_init_inputs (i : inputs) : GTPRXInit.inputs :=
  {| GTPRXInit.restart := negb (rx_enable i);
     GTPRXInit.plllock := qpll_lock i;
     GTPRXInit.rxresetdone := RXRESETDONE i;
     GTPRXInit.rxdlysresetdone := RXDLYSRESETDONE i;
     GTPRXInit.rxsyncdone := RXSYNCDONE i;
     GTPRXInit.rxpmaresetdone := RXPMARESETDONE i;
     GTPRXInit.drp := nth 0 (drp_responses i) DRP.idle_response |}.

Definition drp_interfaces (s : state) (i : inputs) : list DRP.request :=
  [GTPRXInit.drp_request (ss_clock i) (rx_init s) (rx_init_inputs i); drp i].

(** What the channel's DRP port is driven with. *)
Definition drp_bus (s : state) (i : inputs) : DRP.request :=
  DRPMux.bus_request drp_mux_sel (drp_interfaces s i).

(** [self.tx_ready.eq(tx_init.done)], [self.rx_ready.eq(rx_init.done)] *)
Definition tx_ready (s : state) (i : inputs) : bool :=
  GTPTXInit.done (GTPTXInit.fsm_comb (tx_init s) (tx_init_inputs i)).

Definition rx_ready (s : state) (i : inputs) : bool :=
  GTPRXInit.done (GTPRXInit.fsm_comb (rx_init s) (rx_init_inputs i)).

(** *** Tx datapath *)

(** What the datapath drives into the channel: [TX8B10BEN], [TXDATA],
    [TXCHARISK], [TXCHARDISPMODE], [TXCHARDISPVAL]. *)
Record tx_drive : Type := mkTxDrive {
  tx_enable_8b10b : bool;
  tx_data : Z;
  tx_ctrl : Z;
  tx_char_disp_mode : Z;
  tx_char_disp_val : Z
}.

(** [self.sink.ready.eq(1)] *)
Definition sink_ready (s : state) (i : inputs) : bool := true.

(** The flag and the bit are the copies latched into the [tx] domain. *)
Definition tx_datapath (s : state) (i : inputs) : tx_drive :=
  let tx_gpio_en := FFSynchronizer.o (tx_gpio_en_sync s) in
  let tx_gpio := FFSynchronizer.o (tx_gpio_sync s) in
  if tx_gpio_en then
    {| tx_enable_8b10b := false;
       tx_data := trunc (8 * Z.of_nat nwords) (Repl tx_gpio (8 * nwords));
       tx_ctrl := 0;
       tx_char_disp_mode := trunc (Z.of_nat nwords) (Repl tx_gpio nwords);
       tx_char_disp_val := trunc (Z.of_nat nwords) (Repl tx_gpio nwords) |}
  else
    {| tx_enable_8b10b := true;
       tx_data := trunc (8 * Z.of_nat nwords) (sink_data i);
       tx_ctrl := trunc (Z.of_nat nwords) (sink_ctrl i);
       tx_char_disp_mode := 0;
       tx_char_disp_val := 0 |}.

(** *** Rx datapath *)

Section RxDatapath.
(** [SUB] comes from [usb3.physical.coding], which is not among these
    sources: its [value] and [ctrl] are parameters. *)
Variables SUB_value SUB_ctrl : Z.

(** [self.source.valid.eq(1)] *)
Definition source_valid (i : inputs) : bool := true.

(** One iteration of [for i in range(nwords)], acting on
    [(source.data, source.ctrl)]. *)
Definition rx_lane (i : inputs) (source : Z * Z) (lane : Z) : Z * Z :=
  if Z.testbit (rx_code_error i) lane then
    (assign_word (fst source) lane 8 SUB_value,
     assign_bit (snd source) lane (Z.testbit SUB_ctrl 0))
  else
    (assign_word (fst source) lane 8 (word_select (rx_data i) lane 8),
     assign_bit (snd source) lane (Z.testbit (rx_ctrl i) lane)).

(** [(source.data, source.ctrl)] *)
Definition rx_datapath (i : inputs) : Z * Z :=
  fold_left (rx_lane i) (range nwords) (0, 0).

Definition source_data (i : inputs) : Z := fst (rx_datapath i).
Definition source_ctrl (i : inputs) : Z := snd (rx_datapath i).
End RxDatapath.

(** *** Clock edges *)

Definition tick_ss (p : params) (s : state) (i : inputs) : state :=
  {| tx_init := GTPTXInit.tick (tx_params p) (tx_init s) (tx_init_inputs i);
     rx_init := GTPRXInit.tick (rx_params p) (rx_init s) (rx_init_inputs i);
     tx_gpio_en_sync := tx_gpio_en_sync s;
     tx_gpio_sync := tx_gpio_sync s |}.

Definition tick_sync (s : state) (i : inputs) : state :=
  {| tx_init := tx_init s;
     rx_init := GTPRXInit.tick_sync (rx_init s) (rx_init_inputs i);
     tx_gpio_en_sync := tx_gpio_en_sync s;
     tx_gpio_sync := tx_gpio_sync s |}.

Definition tick_tx (s : state) (i : inputs) : state :=
  {| tx_init := tx_init s;
     rx_init := rx_init s;
     tx_gpio_en_sync := FFSynchronizer.tick [] tx (tx_gpio_en_sync s) (tx_gpio_en i);
     tx_gpio_sync := FFSynchronizer.tick [] tx (tx_gpio_sync s) (tx_gpio i) |}.

Inductive edge : Type :=
| Edge_ss (i : inputs)
| Edge_sync (i : inputs)
| Edge_tx (i : inputs).

Definition step (p : params) (s : state) (e : edge) : state :=
  match e with
  | Edge_ss i => tick_ss p s i
  | Edge_sync i => tick_sync s i
  | Edge_tx i => tick_tx s i
  end.

Definition run (p : params) (trace : list edge) (s : state) : state :=
  fold_left (step p) trace s.

(** The states a run from reset can be in. *)
Definition reachable (p : params) (s : state) : Prop :=
  exists trace, s = run p trace (reset_state p).

End GTP.

(** ** LunaArtix7SerDes *)

Module LunaArtix7SerDes.

(** [serdes.tx_enable.eq(self.enable)], [serdes.rx_enable.eq(self.enable)],
    [serdes.tx_gpio_en.eq(self.use_tx_as_gpio)]: the wrapper's [enable]
    feeds both enables of the core. *)
Definition serdes_inputs (enable : bool) (i : GTP.inputs) : GTP.inputs :=
  {| GTP.tx_enable := enable;
     GTP.rx_enable := enable;
     GTP.tx_gpio_en := GTP.tx_gpio_en i;
     GTP.tx_gpio := GTP.tx_gpio i;
     GTP.sink_data := GTP.sink_data i;
     GTP.sink_ctrl := GTP.sink_ctrl i;
     GTP.drp := GTP.drp i;
     GTP.ss_clock := GTP.ss_clock i;
     GTP.qpll_lock := GTP.qpll_lock i;
     GTP.TXRESETDONE := GTP.TXRESETDONE i;
     GTP.TXDLYSRESETDONE := GTP.TXDLYSRESETDONE i;
     GTP.TXPHINITDONE := GTP.TXPHINITDONE i;
     GTP.TXPHALIGNDONE := GTP.TXPHALIGNDONE i;
     GTP.RXRESETDONE := GTP.RXRESETDONE i;
     GTP.RXDLYSRESETDONE := GTP.RXDLYSRESETDONE i;
     GTP.RXSYNCDONE := GTP.RXSYNCDONE i;
     GTP.RXPMARESETDONE := GTP.RXPMARESETDONE i;
     GTP.DRPRDY := GTP.DRPRDY i;
     GTP.DRPDO := GTP.DRPDO i;
     GTP.rx_data := GTP.rx_data i;
     GTP.rx_ctrl := GTP.rx_ctrl i;
     GTP.rx_code_error := GTP.rx_code_error i |}.

(** [self.ready.eq(serdes.tx_ready & serdes.rx_ready)] *)
Definition ready (s : GTP.state) (enable : bool) (i : GTP.inputs) : bool :=
  GTP.tx_ready s (serdes_inputs enable i) && GTP.rx_ready s (serdes_inputs enable i).

End LunaArtix7SerDes.

(** ** Concrete configurations and runs *)

Module Scenario.

(** A 125 MHz [ss] clock: [int(500e-9*125e6) = 62],
    [int(1e-3*125e6) = 125000] and [int(4e-3*125e6) = 500000]. *)
Definition tx_params : GTPTXInit.params := GTPTXInit.mkParams 62 125000.
Definition rx_params : GTPRXInit.params := GTPRXInit.mkParams 62 500000.
Definition params : GTP.params := GTP.mkParams tx_params rx_params.

(** Inputs of the controllers: the status lines all at [up]. *)
Definition tx_inputs (restart up : bool) : GTPTXInit.inputs :=
  GTPTXInit.mkInputs restart up up up up up true.

Definition rx_inputs (restart up pma : bool) (do : Z) : GTPRXInit.inputs :=
  GTPRXInit.mkInputs restart up up up up pma (DRP.mkResponse up do).

(** Inputs of [GTP]: the device reports everything done, answers every
    DRP access at once with [0x0FFF], and [RXPMARESETDONE] is [pma]. *)
Definition gtp_inputs (enable gpio_en gpio pma : bool)
           (rx_data rx_ctrl rx_code_error : Z) : GTP.inputs :=
  {| GTP.tx_enable := enable; GTP.rx_enable := enable;
     GTP.tx_gpio_en := gpio_en; GTP.tx_gpio := gpio;
     GTP.sink_data := 0x1234; GTP.sink_ctrl := 1;
     GTP.drp := DRP.idle_request;
     GTP.ss_clock := false; GTP.qpll_lock := true;
     GTP.TXRESETDONE := true; GTP.TXDLYSRESETDONE := true;
     GTP.TXPHINITDONE := true; GTP.TXPHALIGNDONE := true;
     GTP.RXRESETDONE := true; GTP.RXDLYSRESETDONE := true;
     GTP.RXSYNCDONE := true; GTP.RXPMARESETDONE := pma;
     GTP.DRPRDY := true; GTP.DRPDO := 0x0FFF;
     GTP.rx_data := rx_data; GTP.rx_ctrl := rx_ctrl;
     GTP.rx_code_error := rx_code_error |}.

(** The transmitter one tick after reset, in [DRP]. *)
Definition tx_in_DRP : GTPTXInit.state :=
  GTPTXInit.tick tx_params (GTPTXInit.reset_state tx_params) (tx_inputs false false).

(** The transmitter waiting for a PLL lock that never comes, at the
    tick its watchdog reports [done]. *)
Definition tx_watchdog_expired : GTPTXInit.state :=
  GTPTXInit.run tx_params (repeat (tx_inputs false false) (Z.to_nat 6072))
                (GTPTXInit.reset_state tx_params).

(** The receiver one tick after reset, in [DRP_READ_ISSUE]. *)
Definition rx_in_READ_ISSUE : GTPRXInit.state :=
  GTPRXInit.tick rx_params (GTPRXInit.reset_state rx_params)
                 (rx_inputs false false false 0).

(** The receiver up to its modify phase ... *)
Definition rx_to_MOD_ISSUE : list GTPRXInit.edge :=
  repeat (GTPRXInit.Edge_sync (rx_inputs false true true 0x0FFF)) 2
  ++ repeat (GTPRXInit.Edge_ss (rx_inputs false true true 0x0FFF)) 5.

(** ... and on to its restore phase, the bus now answering with other
    data and [rxpmaresetdone] falling. *)
Definition rx_to_RESTORE_ISSUE : list GTPRXInit.edge :=
  rx_to_MOD_ISSUE
  ++ repeat (GTPRXInit.Edge_ss (rx_inputs false true true 0x5555)) 2
  ++ repeat (GTPRXInit.Edge_sync (rx_inputs false true false 0x5555)) 2
  ++ [GTPRXInit.Edge_ss (rx_inputs false true false 0x5555)].

(** [GTP] enabled from reset until both controllers are in [READY]. *)
Definition gtp_to_READY : list GTP.edge :=
  repeat (GTP.Edge_sync (gtp_inputs true false false true 0 0 0)) 2
  ++ repeat (GTP.Edge_ss (gtp_inputs true false false true 0 0 0)) 7
  ++ repeat (GTP.Edge_sync (gtp_inputs true false false false 0 0 0)) 2
  ++ repeat (GTP.Edge_ss (gtp_inputs true false false false 0 0 0)) 4.

Definition gtp_READY : GTP.state :=
  GTP.run params gtp_to_READY (GTP.reset_state params).

(** [GTP] after two edges of [tx] with the GPIO flag and bit set. *)
Definition gtp_gpio_state : GTP.state :=
  GTP.run params (repeat (GTP.Edge_tx (gtp_inputs true true true true 0 0 0)) 2)
          (GTP.reset_state params).

End Scenario.

(** ** The rest of the backend *)

(** [DRPMux.add_interface] and the order it gives the interfaces. *)
Module DRPMuxRegistry.
Import DRP.

(** [self.interfaces.append(interface)] *)
Definition add_interface (interfaces : list request) (interface : request)
  : list request :=
  interfaces ++ [interface].

End DRPMuxRegistry.

(** The part of [GTP.elaborate] that depends on the PLL's configuration:
    the assertion on the line rate, the table [rxcdr_cfgs] indexed by
    [config["d"]], and the output dividers. *)
Module GTPConfig.
Import GTPQuadPLL.

Inductive outcome : Type :=
| Elaborated (RXCDR_CFG RXOUT_DIV TXOUT_DIV : Z)
| AssertionError
| KeyError (key : Z).

Definition rxcdr_cfgs : list (Z * Z) :=
  [ (1, 0x0000107FE406001041010);
    (2, 0x0000107FE206001041010);
    (4, 0x0000107FE106001041010);
    (8, 0x0000107FE086001041010);
    (16, 0x0000107FE086001041010) ].

(** [dict[key]] *)
Fixpoint getitem (dict : list (Z * Z)) (key : Z) : option Z :=
  match dict with
  | [] => None
  | (k, v) :: rest => if k =? key then Some v else getitem rest key
  end.

(** [assert qpll.config["linerate"] < 6.6e9], then the parameters
    [p_RXCDR_CFG], [p_RXOUT_DIV] and [p_TXOUT_DIV] of the channel. *)
Definition elaborate (config : RateConfig) : outcome :=
  if PrimFloat.ltb (linerate config) 6.6e9 then
    match getitem rxcdr_cfgs (d config) with
    | None => KeyError (d config)
    | Some cfg => Elaborated cfg (d config) (d config)
    end
  else AssertionError.

End GTPConfig.

(** The LFPS pseudo-clock of [GTP.elaborate]: [lfps_counter = Signal(3)],
    [m.d.ss += lfps_counter.eq(lfps_counter + 1)] and
    [lfps_logic_clk = lfps_counter[-1]], the clock of the channel's
    [SIGVALIDCLK]. *)
Module LFPS.
Import Nmigen.

Definition tick (lfps_counter : Z) : Z := trunc 3 (lfps_counter + 1).

Definition lfps_logic_clk (lfps_counter : Z) : bool := Z.testbit lfps_counter 2.

(** The counter [n] edges of [ss] after reset. *)
Definition after (n : nat) : Z := Nat.iter n tick 0.

End LFPS.

(** [BucatiniPHY.__init__] of [phy.py]. *)
Module BucatiniPHY.

(** [{32: 0b00, 16: 0b01, 8: 0b10}] *)
Definition _DATA_BUS_WIDTHS : list (Z * Z) := [(32, 0); (16, 1); (8, 2)].

(** [key in dict] *)
Definition contains (dict : list (Z * Z)) (key : Z) : bool :=
  existsb (fun kv => fst kv =? key) dict.

(** The constructor leaves by an exception on every path: the
    [ValueError] it raises itself, the [KeyError] of a failed lookup, and
    the [TypeError] of [Const(value, width=2)], as nMigen's
    [Const(value, shape=None)] has no parameter [width].  The signals
    declared after that call are never created. *)
Inductive outcome : Type :=
| ValueError (INTERFACE_WIDTH : Z)
| KeyError (key : Z)
| TypeError (value : Z).

Definition __init__ (INTERFACE_WIDTH : Z) : outcome :=
  if negb (contains _DATA_BUS_WIDTHS INTERFACE_WIDTH) then ValueError INTERFACE_WIDTH
  else
    match GTPConfig.getitem _DATA_BUS_WIDTHS INTERFACE_WIDTH with
    | None => KeyError INTERFACE_WIDTH
    | Some value => TypeError value
    end.

End BucatiniPHY.

(** ** Notions used to state the behaviour of the controllers *)

Module Bringup.

(** The position of a state in the transmitter's sequence. *)
Definition tx_rank (f : GTPTXInit.fsm_state) : Z :=
  match f with
  | GTPTXInit.POWER_DOWN => 0
  | GTPTXInit.DRP => 1
  | GTPTXInit.WAIT_PLL_RESET => 2
  | GTPTXInit.WAIT_INIT_DELAY => 3
  | GTPTXInit.WAIT_GTP_RESET => 4
  | GTPTXInit.READY => 5
  end.

(** ... and in the receiver's. *)
Definition rx_rank (f : GTPRXInit.fsm_state) : Z :=
  match f with
  | GTPRXInit.POWER_DOWN => 0
  | GTPRXInit.DRP_READ_ISSUE => 1
  | GTPRXInit.DRP_READ_ISSUE_POST => 2
  | GTPRXInit.DRP_READ_WAIT => 3
  | GTPRXInit.DRP_MOD_ISSUE => 4
  | GTPRXInit.DRP_MOD_WAIT => 5
  | GTPRXInit.WAIT_PMARST_FALL => 6
  | GTPRXInit.DRP_RESTORE_ISSUE => 7
  | GTPRXInit.DRP_RESTORE_WAIT => 8
  | GTPRXInit.WAIT_GTP_RESET => 9
  | GTPRXInit.READY => 10
  end.

(** A transmitter that is not restarted and whose device answers at
    once: PLL locked, reset done, DRP done. *)
Definition tx_ideal (i : GTPTXInit.inputs) : Prop :=
  GTPTXInit.restart i = false /\ GTPTXInit.plllock i = true
  /\ GTPTXInit.txresetdone i = true /\ GTPTXInit.drp_done i = true.

(** The number of ticks the settle timer of the transmitter takes. *)
Definition tx_settle_ticks (p : GTPTXInit.params) : nat :=
  Z.to_nat (2 ^ WaitTimer.width (GTPTXInit.init_delay_t p) - GTPTXInit.init_delay_t p).

(** What an ideal device has brought about once the settle timer is
    done: the latched lock and reset-done are high and the timer is
    done. *)
Definition tx_settled (s : GTPTXInit.state) : Prop :=
  FFSynchronizer.stage0 (GTPTXInit.plllock_sync s) = true
  /\ FFSynchronizer.stage1 (GTPTXInit.plllock_sync s) = true
  /\ FFSynchronizer.stage0 (GTPTXInit.txresetdone_sync s) = true
  /\ FFSynchronizer.stage1 (GTPTXInit.txresetdone_sync s) = true
  /\ WaitTimer.done (GTPTXInit.init_delay s) = true.

(** The input [rxpmaresetdone] carried by an edge of the receiver. *)
Definition edge_rxpmaresetdone (e : GTPRXInit.edge) : bool :=
  match e with
  | GTPRXInit.Edge_ss i => GTPRXInit.rxpmaresetdone i
  | GTPRXInit.Edge_sync i => GTPRXInit.rxpmaresetdone i
  end.

(** The edges of the receiver that clock [ss], and whether such an edge
    sees [drp.rdy]. *)
Definition is_ss_edge (e : GTPRXInit.edge) : bool :=
  match e with
  | GTPRXInit.Edge_ss _ => true
  | GTPRXInit.Edge_sync _ => false
  end.

Definition edge_drp_rdy (e : GTPRXInit.edge) : bool :=
  match e with
  | GTPRXInit.Edge_ss i => DRP.rdy (GTPRXInit.drp i)
  | GTPRXInit.Edge_sync _ => false
  end.

(** The edges of [GTP] that do not clock the [tx] domain. *)
Definition not_tx_edge (e : GTP.edge) : bool :=
  match e with
  | GTP.Edge_tx _ => false
  | _ => true
  end.

(** What the transmitter's controller sees of a run of [GTP]: the inputs
    of its [ss] edges. *)
Fixpoint tx_trace (trace : list GTP.edge) : list GTPTXInit.inputs :=
  match trace with
  | [] => []
  | GTP.Edge_ss i :: rest => GTP.tx_init_inputs i :: tx_trace rest
  | _ :: rest => tx_trace rest
  end.

(** ... and what the receiver's controller sees: its [ss] and [sync]
    edges. *)
Fixpoint rx_trace (trace : list GTP.edge) : list GTPRXInit.edge :=
  match trace with
  | [] => []
  | GTP.Edge_ss i :: rest => GTPRXInit.Edge_ss (GTP.rx_init_inputs i) :: rx_trace rest
  | GTP.Edge_sync i :: rest =>
      GTPRXInit.Edge_sync (GTP.rx_init_inputs i) :: rx_trace rest
  | GTP.Edge_tx _ :: rest => rx_trace rest
  end.

(** The input [restart] carried by an edge of the receiver. *)
Definition edge_restart (e : GTPRXInit.edge) : bool :=
  match e with
  | GTPRXInit.Edge_ss i => GTPRXInit.restart i
  | GTPRXInit.Edge_sync i => GTPRXInit.restart i
  end.

End Bringup.

(** * Properties *)

Section ForReturn.
Context {A R : Type}.

Lemma for_return_app (xs ys : list A) (body : A -> option R) :
  for_return (xs ++ ys) body =
  match for_return xs body with
  | Some r => Some r
  | None => for_return ys body
  end.
Proof.
  induction xs as [|x xs IH]; simpl; [reflexivity|].
  destruct (body x); [reflexivity | exact IH].
Qed.

Lemma for_return_ext (xs : list A) (f g : A -> option R) :
  (forall x, In x xs -> f x = g x) -> for_return xs f = for_return xs g.
Proof.
  induction xs as [|x xs IH]; simpl; intros E; [reflexivity|].
  rewrite (E x (or_introl eq_refl)).
  destruct (g x); [reflexivity|].
  apply IH; intros y Hy; apply E; right; exact Hy.
Qed.

Lemma for_return_guard (b : bool) (xs : list A) (body : A -> option R) :
  (if b then for_return xs body else None) =
  for_return xs (fun x => if b then body x else None).
Proof.
  destruct b; [reflexivity|].
  induction xs as [|x xs IH]; simpl; auto.
Qed.

(** A loop that returns at the first element passing a test. *)
Lemma for_return_first (p : A -> bool) (g : A -> R) (xs : list A) (r : R) :
  for_return xs (fun x => if p x then Some (g x) else None) = Some r ->
  exists pre c post,
    xs = pre ++ c :: post /\ r = g c /\ p c = true /\
    forall x, In x pre -> p x = false.
Proof.
  induction xs as [|x xs IH]; simpl; [discriminate|].
  destruct (p x) eqn:Px.
  - intros [= <-]. exists [], x, xs. repeat split; auto.
    intros y [].
  - intros H. destruct (IH H) as (pre & c & post & -> & -> & Pc & Hpre).
    exists (x :: pre), c, post. repeat split; auto.
    intros y [<- | Hy]; auto.
Qed.

Lemma for_return_none (p : A -> bool) (g : A -> R) (xs : list A) :
  for_return xs (fun x => if p x then Some (g x) else None) = None <->
  forall x, In x xs -> p x = false.
Proof.
  induction xs as [|x xs IH]; simpl.
  - split; [intros _ y [] | reflexivity].
  - destruct (p x) eqn:Px.
    + split; [discriminate|]. intros H.
      specialize (H x (or_introl eq_refl)). congruence.
    + rewrite IH. split.
      * intros H y [<- | Hy]; auto.
      * intros H y Hy; apply H; right; exact Hy.
Qed.
End ForReturn.

Lemma for_return_flat_map {A B R : Type} (f : A -> list B) (xs : list A)
      (body : B -> option R) :
  for_return (flat_map f xs) body = for_return xs (fun x => for_return (f x) body).
Proof.
  induction xs as [|x xs IH]; simpl; [reflexivity|].
  rewrite for_return_app, IH. reflexivity.
Qed.

Lemma for_return_map {A B R : Type} (f : A -> B) (xs : list A) (body : B -> option R) :
  for_return (map f xs) body = for_return xs (fun x => body (f x)).
Proof.
  induction xs as [|x xs IH]; simpl; [reflexivity|].
  destruct (body (f x)); [reflexivity | exact IH].
Qed.

Module GTPQuadPLLFacts.
Import GTPQuadPLL.

(** The nested loops are one loop over [grid]. *)
Lemma search_grid (refclk_freq linerate : float) :
  search refclk_freq linerate =
  for_return grid (fun c =>
    if feasibleb refclk_freq linerate c
    then Some (config_at refclk_freq linerate c) else None).
Proof.
  unfold search, grid.
  rewrite for_return_flat_map. apply for_return_ext; intros n1 _.
  rewrite for_return_flat_map. apply for_return_ext; intros n2 _.
  rewrite for_return_flat_map. apply for_return_ext; intros m _.
  rewrite for_return_map. cbv zeta. rewrite for_return_guard.
  apply for_return_ext; intros d _.
  unfold feasibleb, config_at.
  destruct (vco_in_range _); simpl; reflexivity.
Qed.

Lemma feasibleb_spec (refclk_freq linerate : float) (c : Z * Z * Z * Z) :
  feasibleb refclk_freq linerate c = true <-> feasible refclk_freq linerate c.
Proof.
  destruct c as [[[n1 n2] m] d]. unfold feasibleb, feasible, vco_in_range.
  rewrite !andb_true_iff. tauto.
Qed.

(** The model rounds as the doubles of the code do: a reference clock of
    [5e9/24] gives a VCO frequency of exactly 2.5 GHz at [n1*n2 = 12], one
    of [1.6e9/12] gives exactly 1.6 GHz, and both get a configuration. *)
Lemma compute_config_rounds_to_nearest :
  compute_config 0x1.8d5d42aaaaaabp+27 5e9
    = Returns (mkRateConfig 4 3 1 1 2.5e9 0x1.8d5d42aaaaaabp+27 5e9)
  /\ compute_config 0x1.fca0555555555p+26 3.2e9
     = Returns (mkRateConfig 4 3 1 1 1.6e9 0x1.fca0555555555p+26 3.2e9).
Proof. split; vm_compute; reflexivity. Qed.

End GTPQuadPLLFacts.

Module GTPQuadPLLClaims.
Import GTPQuadPLL GTPQuadPLLFacts.

Lemma lex_ltb_spec (a b : Z * Z * Z * Z) : lex_ltb a b = true -> lex_lt a b.
Proof.
  destruct a as [[[a1 a2] a3] a4], b as [[[b1 b2] b3] b4].
  unfold lex_ltb, lex_lt.
  rewrite !orb_true_iff, !andb_true_iff, !orb_true_iff, !andb_true_iff.
  rewrite !orb_true_iff, !andb_true_iff, !Z.ltb_lt, !Z.eqb_eq. tauto.
Qed.

Lemma ascendingb_later (l before after : list (Z * Z * Z * Z)) (c : Z * Z * Z * Z) :
  ascendingb l = true -> l = before ++ c :: after ->
  forall x, In x after -> lex_lt c x.
Proof.
  revert l. induction before as [|b before IH]; intros l Hl -> x Hx; simpl in Hl.
  - apply andb_true_iff in Hl. destruct Hl as [Hc _].
    rewrite forallb_forall in Hc. apply lex_ltb_spec, Hc, Hx.
  - apply andb_true_iff in Hl. destruct Hl as [_ Hl].
    exact (IH _ Hl eq_refl x Hx).
Qed.

Lemma grid_ascending : ascendingb grid = true.
Proof. vm_compute. reflexivity. Qed.

(** What a successful search returns. *)
Lemma search_some (refclk_freq linerate : float) (config : RateConfig) :
  search refclk_freq linerate = Some config ->
  exists before c after,
    grid = before ++ c :: after /\
    config = config_at refclk_freq linerate c /\
    feasible refclk_freq linerate c /\
    forall x, In x before -> ~ feasible refclk_freq linerate x.
Proof.
  rewrite search_grid. intros H.
  apply for_return_first in H.
  destruct H as (before & c & after & Hg & Hc & Hf & Hb).
  exists before, c, after. repeat split; auto.
  - apply feasibleb_spec, Hf.
  - intros x Hx Hfx. apply feasibleb_spec in Hfx.
    rewrite (Hb x Hx) in Hfx. discriminate.
Qed.

Lemma search_none (refclk_freq linerate : float) :
  search refclk_freq linerate = None <->
  forall c, In c grid -> ~ feasible refclk_freq linerate c.
Proof.
  rewrite search_grid, for_return_none. split; intros H c Hc.
  - intros Hf. apply feasibleb_spec in Hf. rewrite (H c Hc) in Hf. discriminate.
  - destruct (feasibleb refclk_freq linerate c) eqn:E; [|reflexivity].
    apply feasibleb_spec in E. destruct (H c Hc E).
Qed.

(** C1: whenever [compute_config] returns, the returned configuration
    has [vco_freq = refclk_freq*(n1*n2)/m], computed on doubles as the
    code computes it, within [1.6e9, 3.3e9], and [vco_freq*2/d] compares
    equal to the requested line rate; it is the first point of the grid,
    in the order of the nested loops ([n1], then [n2], then [m], then
    [d], each ascending), that meets both constraints: no earlier point
    meets them and every other point that does comes later in the
    lexicographic order. *)
Theorem compute_config_returns_first_feasible
        (refclk_freq linerate : float) (config : RateConfig) :
  compute_config refclk_freq linerate = Returns config ->
  vco_freq config
    = (refclk_freq * int_to_float (n1 config * n2 config)
       / int_to_float (m config))%float
  /\ PrimFloat.leb 1.6e9 (vco_freq config) = true
  /\ PrimFloat.leb (vco_freq config) 3.3e9 = true
  /\ PrimFloat.eqb (vco_freq config * int_to_float 2 / int_to_float (d config))%float
                   linerate = true
  /\ clkin config = refclk_freq
  /\ GTPQuadPLL.linerate config = linerate
  /\ (exists before after,
        grid = before ++ point_of config :: after /\
        forall c, In c before -> ~ feasible refclk_freq linerate c)
  /\ (forall c, In c grid -> feasible refclk_freq linerate c ->
        c = point_of config \/ lex_lt (point_of config) c).
Proof.
  unfold compute_config.
  destruct (search refclk_freq linerate) as [config'|] eqn:S; [|discriminate].
  intros [= <-].
  destruct (search_some _ _ _ S) as (before & c & after & Hg & -> & Hf & Hb).
  destruct c as [[[a b] c] e].
  pose proof Hf as (Hlo & Hhi & Hl).
  unfold config_at, point_of; cbn [n1 n2 m d vco_freq clkin GTPQuadPLL.linerate].
  repeat split; auto.
  - exists before, after. split; auto.
  - intros x Hx Hfx. rewrite Hg in Hx. apply in_app_or in Hx.
    destruct Hx as [Hx | [Hx | Hx]].
    + destruct (Hb x Hx Hfx).
    + left. symmetry. exact Hx.
    + right. exact (ascendingb_later _ _ _ _ grid_ascending Hg x Hx).
Qed.

(** 125 MHz reference, 5 Gbps: the configuration [LunaArtix7SerDes] asks
    for. *)
Lemma compute_config_returns_first_feasible_witness :
  compute_config 125e6 5e9 = Returns (config_at 125e6 5e9 (4, 5, 1, 1))
  /\ PrimFloat.leb 1.6e9 (vco_freq (config_at 125e6 5e9 (4, 5, 1, 1))) = true
  /\ exists before after, grid = before ++ (4, 5, 1, 1) :: after.
Proof.
  assert (E : compute_config 125e6 5e9 = Returns (config_at 125e6 5e9 (4, 5, 1, 1)))
    by (vm_compute; reflexivity).
  split; [exact E|].
  destruct (compute_config_returns_first_feasible _ _ _ E)
    as (_ & Hlo & _ & _ & _ & _ & (before & after & Hg & _) & _).
  split; [exact Hlo|].
  exists before, after. exact Hg.
Defined.

(** The grid has a feasible point for 100 MHz and 1 Gbps:
    [100e6*(4*5)/1 = 2e9] and [2e9*2/4 = 1e9]. *)
Lemma compute_config_100MHz_1Gbps_does_not_fail :
  ~ exists refclk_MHz linerate_Gbps,
      compute_config 100e6 1e9 = ValueError refclk_MHz linerate_Gbps.
Proof.
  intros (a & b & H). vm_compute in H. discriminate H.
Qed.

(** C6, amended: [compute_config] raises its [ValueError], formatted from
    the requested pair, exactly when no point of the grid meets both
    constraints as the code tests them on doubles, and otherwise returns
    a complete configuration that meets them; for 100 MHz and 1 Gbps it
    returns [n1=4, n2=5, m=1, d=4]. *)
Theorem compute_config_fails_iff_infeasible :
  (forall refclk_freq linerate : float,
      ((forall c, In c grid -> ~ feasible refclk_freq linerate c) <->
       compute_config refclk_freq linerate
         = ValueError (refclk_freq / 1e6)%float (linerate / 1e9)%float)
      /\ ((exists c, In c grid /\ feasible refclk_freq linerate c) <->
          exists config,
            compute_config refclk_freq linerate = Returns config
            /\ In (point_of config) grid
            /\ feasible refclk_freq linerate (point_of config)
            /\ config = config_at refclk_freq linerate (point_of config)))
  /\ compute_config 100e6 1e9 = Returns (config_at 100e6 1e9 (4, 5, 1, 4)).
Proof.
  split; [|vm_compute; reflexivity].
  intros refclk_freq linerate. unfold compute_config.
  destruct (search refclk_freq linerate) as [config|] eqn:S.
  - destruct (search_some _ _ _ S) as (before & c & after & Hg & -> & Hf & Hb).
    assert (Hp : point_of (config_at refclk_freq linerate c) = c)
      by (destruct c as [[[? ?] ?] ?]; reflexivity).
    assert (Hin : In c grid) by (rewrite Hg; apply in_or_app; right; left; reflexivity).
    split; split.
    + intros H. destruct (H c Hin Hf).
    + discriminate.
    + intros _. eexists. split; [reflexivity|]. rewrite Hp. auto.
    + intros _. exists c. auto.
  - pose proof (proj1 (search_none _ _) S) as Hn.
    split; split.
    + reflexivity.
    + intros _. exact Hn.
    + intros (c & Hc & Hf). destruct (Hn c Hc Hf).
    + intros (config & H & _). discriminate.
Qed.

(** 100 MHz and 1.1 Gbps: no point of the grid is feasible. *)
Lemma compute_config_fails_iff_infeasible_witness :
  compute_config 100e6 1.1e9 = ValueError (100e6 / 1e6)%float (1.1e9 / 1e9)%float.
Proof.
  apply (proj1 (proj1 compute_config_fails_iff_infeasible 100e6%float 1.1e9%float)).
  intros c Hc Hf. apply feasibleb_spec in Hf.
  vm_compute in Hc.
  repeat (destruct Hc as [<- | Hc]; [vm_compute in Hf; discriminate Hf|]).
  exact Hc.
Defined.

End GTPQuadPLLClaims.

(** ** WaitTimer *)

Module WaitTimerFacts.
Import Nmigen WaitTimer.

(** The counter is wide enough for its reset value. *)
Lemma width_bound (t : Z) : 0 <= t -> t < 2 ^ width t.
Proof.
  intros Ht. unfold width, range_width, bits_for.
  replace (t + 1 - 1) with t by lia.
  change (if 0 <? 0 then Z.log2_up (0 + 1) else 1) with 1.
  destruct (0 <? t) eqn:E.
  - apply Z.ltb_lt in E.
    pose proof (Z.log2_up_spec (t + 1) ltac:(lia)) as [_ Hup].
    pose proof (Z.log2_up_nonneg (t + 1)).
    assert (2 ^ Z.log2_up (t + 1) <= 2 ^ Z.max 1 (Z.log2_up (t + 1)))
      by (apply Z.pow_le_mono_r; lia).
    lia.
  - apply Z.ltb_ge in E. assert (t = 0) by lia. subst t. reflexivity.
Qed.

Lemma run_app (t : Z) (ws1 ws2 : list bool) (s : state) :
  run t (ws1 ++ ws2) s = run t ws2 (run t ws1 s).
Proof. unfold run. apply fold_left_app. Qed.

Lemma run_snoc (t : Z) (k : nat) (s : state) :
  run t (repeat true (S k)) s = tick t true (run t (repeat true k) s).
Proof.
  replace (repeat true (S k)) with (repeat true k ++ [true]).
  - rewrite run_app. reflexivity.
  - change [true] with (repeat true 1). rewrite <- repeat_app.
    f_equal. lia.
Qed.

(** With [wait] held from reset the counter climbs from [t]. *)
Lemma count_climbs (t : Z) (k : nat) :
  0 < t -> t + Z.of_nat k < 2 ^ width t ->
  count (run t (repeat true k) (reset t)) = t + Z.of_nat k.
Proof.
  intros Ht. induction k as [|k IH]; intros Hk.
  - simpl. lia.
  - rewrite run_snoc. unfold tick, tick_with, register, next_count, done. simpl.
    rewrite IH by lia.
    destruct (t + Z.of_nat k =? 0) eqn:E; [apply Z.eqb_eq in E; lia|].
    simpl. unfold trunc. rewrite Z.mod_small by lia. lia.
Qed.

(** X1: so [done] is first seen [2^width - t] ticks after reset, the tick
    at which the counter wraps around to zero. *)
Theorem done_when_counter_wraps (t : Z) :
  0 < t ->
  (forall k : nat, Z.of_nat k < 2 ^ width t - t ->
      done (run t (repeat true k) (reset t)) = false)
  /\ done (run t (repeat true (Z.to_nat (2 ^ width t - t))) (reset t)) = true.
Proof.
  intros Ht. pose proof (width_bound t ltac:(lia)) as Hw. split.
  - intros k Hk. unfold done. rewrite count_climbs by lia.
    apply Z.eqb_neq. lia.
  - remember (Z.to_nat (2 ^ width t - t)) as n eqn:En.
    destruct n as [|n]; [lia|].
    rewrite run_snoc. unfold tick, tick_with, register, next_count, done. simpl.
    rewrite count_climbs by lia.
    destruct (t + Z.of_nat n =? 0) eqn:E; [apply Z.eqb_eq in E; lia|].
    simpl. unfold trunc.
    replace (t + Z.of_nat n + 1) with (2 ^ width t) by lia.
    rewrite Z.mod_same by lia. reflexivity.
Qed.

Lemma done_when_counter_wraps_witness :
  done (run 3 (repeat true (Z.to_nat (2 ^ width 3 - 3))) (reset 3)) = true.
Proof. apply (done_when_counter_wraps 3). lia. Defined.

(** Deasserting [wait] reloads the counter at the next tick. *)
Lemma reload_on_deassert (t : Z) (s : state) :
  count (tick t false s) = t /\ done (tick t false s) = (t =? 0).
Proof. split; reflexivity. Qed.

(** C2 at a threshold of 3 ticks, held waiting from reset: the counter
    is a 2-bit signal, one tick takes it from 3 to 0 and [done] is set
    after that single tick, two ticks before the threshold has elapsed.
    At a threshold of 5 the first tick takes the counter up to 6.  The
    thresholds of the controllers at 125 MHz, 62 and 125000 ticks, are
    cut to 2 and 6072 ticks. *)
Theorem WaitTimer_counts_up_and_is_done_early :
  width 3 = 2
  /\ count (tick 3 true (reset 3)) = 0
  /\ done (run 3 [true] (reset 3)) = true
  /\ count (tick 5 true (reset 5)) = 6
  /\ done (run 62 (repeat true 2) (reset 62)) = true
  /\ done (run 125000 (repeat true (Z.to_nat 6072)) (reset 125000)) = true.
Proof. vm_compute. repeat split. Qed.

End WaitTimerFacts.

(** ** DRPMux *)

Module DRPMuxFacts.
Import Nmigen DRP DRPMux.

Lemma switch_hit {A : Type} (cases : list A) (default : A) (i : Z) (k : nat) :
  (k < length cases)%nat ->
  switch (i + Z.of_nat k) i cases = Some (nth k cases default).
Proof.
  revert i k. induction cases as [|c cases IH]; intros i k Hk; simpl in *; [lia|].
  destruct k as [|k].
  - replace (i + Z.of_nat 0) with i by lia. rewrite Z.eqb_refl. reflexivity.
  - destruct (i + Z.of_nat (S k) =? i) eqn:E; [apply Z.eqb_eq in E; lia|].
    replace (i + Z.of_nat (S k)) with (i + 1 + Z.of_nat k) by lia.
    apply IH. lia.
Qed.

Lemma switch_miss {A : Type} (cases : list A) (sel i : Z) :
  sel < i \/ i + Z.of_nat (length cases) <= sel -> switch sel i cases = None.
Proof.
  revert i. induction cases as [|c cases IH]; intros i H; simpl in *; [reflexivity|].
  destruct (sel =? i) eqn:E; [apply Z.eqb_eq in E; lia|].
  apply IH. lia.
Qed.

Lemma responses_from_nth (sel i : Z) (n j : nat) (bus : response) :
  nth j (responses_from sel i n bus) idle_response =
  if (j <? n)%nat && (sel =? i + Z.of_nat j) then bus else idle_response.
Proof.
  revert i j. induction n as [|n IH]; intros i j; simpl.
  - destruct j; reflexivity.
  - destruct j as [|j].
    + replace (i + Z.of_nat 0) with i by lia. simpl.
      destruct (sel =? i); reflexivity.
    + rewrite IH. replace (i + 1 + Z.of_nat j) with (i + Z.of_nat (S j)) by lia.
      reflexivity.
Qed.

Lemma responses_nth (sel : Z) (interfaces : list request) (j : nat) (bus : response) :
  nth j (responses sel interfaces bus) idle_response =
  if (j <? length interfaces)%nat && (sel =? Z.of_nat j) then bus else idle_response.
Proof. unfold responses. rewrite responses_from_nth. reflexivity. Qed.

Lemma responses_length (sel : Z) (interfaces : list request) (bus : response) :
  length (responses sel interfaces bus) = length interfaces.
Proof.
  unfold responses. generalize 0. induction (length interfaces) as [|n IH]; intros i.
  - reflexivity.
  - simpl. rewrite IH. reflexivity.
Qed.

(** An interface that sees the bus's response is the selected one. *)
Lemma connected_is_selected (n : nat) (sel : Z) (i : nat) :
  connected n sel i -> (i < n)%nat /\ sel = Z.of_nat i.
Proof.
  intros H.
  destruct (H (repeat idle_request n) (mkResponse true 1) (repeat_length _ _)) as [_ Hr].
  rewrite responses_nth, repeat_length in Hr.
  destruct (i <? n)%nat eqn:Ei; [|discriminate Hr].
  destruct (sel =? Z.of_nat i) eqn:Es; [|discriminate Hr].
  apply Nat.ltb_lt in Ei. apply Z.eqb_eq in Es. auto.
Qed.

Lemma selected_is_connected (n : nat) (i : nat) :
  (i < n)%nat -> connected n (Z.of_nat i) i.
Proof.
  intros Hi interfaces bus Hn. split.
  - unfold bus_request.
    change (Z.of_nat i) with (0 + Z.of_nat i).
    rewrite (switch_hit interfaces idle_request 0 i) by lia. reflexivity.
  - rewrite responses_nth, Hn.
    apply Nat.ltb_lt in Hi. rewrite Hi, Z.eqb_refl. reflexivity.
Qed.

(** The mux of [GTP] has two interfaces and a 4-bit selector: under
    [sel = 2] neither interface is connected, the bus is idle and no
    interface sees the bus's response. *)
Lemma selector_out_of_range_connects_nobody :
  ~ (forall (n : nat) (sel : Z),
        (0 < n <= 16)%nat -> 0 <= sel < 16 ->
        exists i : nat, connected n sel i).
Proof.
  intros H. destruct (H 2%nat 2 ltac:(lia) ltac:(lia)) as [i Hi].
  apply connected_is_selected in Hi. lia.
Qed.

(** C7, amended: for every selector value below the number of registered
    interfaces exactly one interface, the one at that index, is
    connected: the bus carries its request and it observes the bus's
    [rdy/do]; for the remaining selector values nothing is connected and
    the bus is idle.  In all cases every other interface observes the
    idle response, and what an interface observes in a tick is the
    bus's response of that tick gated by the selector of that tick:
    the mux keeps nothing from earlier ticks. *)
Theorem selected_interface_connected
        (interfaces : list request) (sel : Z) (bus : response) :
  (length interfaces <= 16)%nat -> 0 <= sel < 16 ->
  elaborate sel interfaces bus
    = Some (bus_request sel interfaces, responses sel interfaces bus)
  /\ (sel < Z.of_nat (length interfaces) ->
        bus_request sel interfaces = nth (Z.to_nat sel) interfaces idle_request
        /\ nth (Z.to_nat sel) (responses sel interfaces bus) idle_response = bus
        /\ connected (length interfaces) sel (Z.to_nat sel)
        /\ forall i, connected (length interfaces) sel i -> i = Z.to_nat sel)
  /\ (Z.of_nat (length interfaces) <= sel ->
        bus_request sel interfaces = idle_request
        /\ forall i, ~ connected (length interfaces) sel i)
  /\ (forall j, Z.of_nat j <> sel ->
        nth j (responses sel interfaces bus) idle_response = idle_response)
  /\ (forall j, (j < length interfaces)%nat ->
        rdy (nth j (responses sel interfaces bus) idle_response)
          = (sel =? Z.of_nat j) && rdy bus
        /\ do (nth j (responses sel interfaces bus) idle_response)
          = if sel =? Z.of_nat j then do bus else 0).
Proof.
  intros Hn Hsel.
  split; [|split; [|split; [|split]]].
  - unfold elaborate. apply Nat.leb_le in Hn. rewrite Hn.
    unfold trunc. rewrite Z.mod_small by lia. reflexivity.
  - intros Hin. split; [|split; [|split]].
    + unfold bus_request.
      replace sel with (0 + Z.of_nat (Z.to_nat sel)) at 1 by lia.
      rewrite (switch_hit interfaces idle_request 0 (Z.to_nat sel)) by lia.
      reflexivity.
    + rewrite responses_nth.
      assert (E : (Z.to_nat sel <? length interfaces)%nat = true)
        by (apply Nat.ltb_lt; lia).
      rewrite E. replace (Z.of_nat (Z.to_nat sel)) with sel by lia.
      rewrite Z.eqb_refl. reflexivity.
    + replace sel with (Z.of_nat (Z.to_nat sel)) at 1 by lia.
      apply selected_is_connected. lia.
    + intros i Hi. apply connected_is_selected in Hi. lia.
  - intros Hout. split.
    + unfold bus_request. rewrite switch_miss by lia. reflexivity.
    + intros i Hi. apply connected_is_selected in Hi. lia.
  - intros j Hj. rewrite responses_nth.
    destruct (sel =? Z.of_nat j) eqn:E; [apply Z.eqb_eq in E; lia|].
    rewrite andb_false_r. reflexivity.
  - intros j Hj. rewrite responses_nth. apply Nat.ltb_lt in Hj. rewrite Hj. simpl.
    destruct (sel =? Z.of_nat j); split; reflexivity.
Qed.

(** The mux of [GTP]: the receiver's controller and the external port,
    with the selector at its reset value. *)
Lemma selected_interface_connected_witness :
  bus_request 0 [mkRequest true true false 0x011 0; idle_request]
    = mkRequest true true false 0x011 0
  /\ nth 1 (responses 0 [mkRequest true true false 0x011 0; idle_request]
                      (mkResponse true 0x1234)) idle_response
     = idle_response.
Proof.
  pose proof (selected_interface_connected
                [mkRequest true true false 0x011 0; idle_request] 0
                (mkResponse true 0x1234)
                ltac:(simpl; lia) ltac:(lia)) as (_ & Hin & _ & Hidle & _).
  split.
  - exact (proj1 (Hin ltac:(simpl; lia))).
  - apply (Hidle 1%nat). lia.
Defined.

End DRPMuxFacts.

(** ** Bit-level facts about the nMigen primitives *)

Module NmigenFacts.
Import Nmigen.

Lemma Repl_testbit (bit : bool) (count : nat) (k : Z) :
  0 <= k < Z.of_nat count -> Z.testbit (Repl bit count) k = bit.
Proof.
  revert k. induction count as [|count IH]; intros k Hk; [lia|].
  cbn [Repl]. rewrite Z.add_comm.
  destruct (Z.eq_dec k 0) as [->|Hnz].
  - apply Z.testbit_0_r.
  - replace k with (Z.succ (k - 1)) by lia.
    rewrite Z.testbit_succ_r by lia. apply IH. lia.
Qed.

Lemma Repl_range (bit : bool) (count : nat) :
  0 <= Repl bit count < 2 ^ Z.of_nat count.
Proof.
  induction count as [|count IH].
  - simpl. lia.
  - cbn [Repl]. rewrite Nat2Z.inj_succ, Z.pow_succ_r by lia.
    destruct bit; simpl Z.b2z; lia.
Qed.

Ltac bitwise :=
  apply Z.bits_inj'; intros n Hn;
  repeat first
    [ rewrite Z.land_spec | rewrite Z.lor_spec | rewrite Z.ldiff_spec
    | rewrite Z.shiftr_spec by lia | rewrite Z.shiftl_spec by lia ].

Lemma ones_testbit (w n : Z) :
  0 <= w -> Z.testbit (Z.ones w) n = (0 <=? n) && (n <? w).
Proof.
  intros Hw. destruct (Z.leb_spec 0 n).
  - rewrite Z.testbit_ones_nonneg by lia. reflexivity.
  - rewrite Z.testbit_neg_r by lia. reflexivity.
Qed.

(** Reading back the slice just assigned gives the assigned value, cut
    to the width of the slice. *)
Lemma word_select_assigned (value i w new : Z) :
  0 <= i -> 0 <= w ->
  word_select (assign_word value i w new) i w = Z.land new (Z.ones w).
Proof.
  intros Hi Hw. unfold word_select, assign_word. bitwise.
  replace (n + i * w - i * w) with n by lia.
  rewrite !ones_testbit by lia.
  destruct (Z.testbit value (n + i * w)), (Z.testbit new n), (0 <=? n), (n <? w);
    reflexivity.
Qed.

(** Assigning one slice leaves the others as they were. *)
Lemma word_select_other (value i j w new : Z) :
  0 <= i -> 0 <= j -> 0 <= w -> i <> j ->
  word_select (assign_word value j w new) i w = word_select value i w.
Proof.
  intros Hi Hj Hw Hij. unfold word_select, assign_word. bitwise.
  rewrite !ones_testbit by lia.
  destruct (Z.ltb_spec n w); [|rewrite !andb_false_r; reflexivity].
  assert (E : (0 <=? n + i * w - j * w) && (n + i * w - j * w <? w) = false).
  { apply andb_false_iff.
    destruct (Z.leb_spec 0 (n + i * w - j * w)); [right|left; reflexivity].
    apply Z.ltb_ge. nia. }
  rewrite E. simpl. rewrite !andb_false_r, orb_false_r, !andb_true_r. reflexivity.
Qed.

Lemma word_select_masked (value i w : Z) :
  0 <= w ->
  Z.land (word_select value i w) (Z.ones w) = word_select value i w.
Proof.
  intros Hw. unfold word_select. rewrite <- Z.land_assoc, Z.land_diag. reflexivity.
Qed.

Lemma land_ones_small (value w : Z) :
  0 <= w -> 0 <= value < 2 ^ w -> Z.land value (Z.ones w) = value.
Proof.
  intros Hw Hv. rewrite Z.land_ones by lia. apply Z.mod_small. lia.
Qed.

Lemma assign_bit_same (value i : Z) (new : bool) :
  0 <= i -> Z.testbit (assign_bit value i new) i = new.
Proof.
  intros Hi. unfold assign_bit. destruct new.
  - apply Z.setbit_eq. lia.
  - apply Z.clearbit_eq.
Qed.

Lemma assign_bit_other (value i j : Z) (new : bool) :
  0 <= i -> 0 <= j -> i <> j ->
  Z.testbit (assign_bit value j new) i = Z.testbit value i.
Proof.
  intros Hi Hj Hij. unfold assign_bit. destruct new.
  - apply Z.setbit_neq; lia.
  - apply Z.clearbit_neq. lia.
Qed.


End NmigenFacts.

(** ** GTP datapaths *)

Module GTPDatapath.
Import Nmigen NmigenFacts GTP.

Section Rx.
Variables SUB_value SUB_ctrl : Z.

Lemma rx_datapath_lanes (i : inputs) :
  rx_datapath SUB_value SUB_ctrl i =
  rx_lane SUB_value SUB_ctrl i (rx_lane SUB_value SUB_ctrl i (0, 0) 0) 1.
Proof. reflexivity. Qed.

(** What one iteration leaves in its own lane ... *)
Lemma rx_lane_same (i : inputs) (source : Z * Z) (lane : Z) :
  0 <= lane ->
  word_select (fst (rx_lane SUB_value SUB_ctrl i source lane)) lane 8
    = (if Z.testbit (rx_code_error i) lane
       then Z.land SUB_value (Z.ones 8)
       else word_select (rx_data i) lane 8)
  /\ Z.testbit (snd (rx_lane SUB_value SUB_ctrl i source lane)) lane
    = (if Z.testbit (rx_code_error i) lane
       then Z.testbit SUB_ctrl 0
       else Z.testbit (rx_ctrl i) lane).
Proof.
  intros Hl. unfold rx_lane.
  destruct (Z.testbit (rx_code_error i) lane); cbn [fst snd];
    rewrite word_select_assigned, assign_bit_same by lia;
    rewrite ?word_select_masked by lia; auto.
Qed.

(** ... and in the other lanes. *)
Lemma rx_lane_other (i : inputs) (source : Z * Z) (lane other : Z) :
  0 <= lane -> 0 <= other -> other <> lane ->
  word_select (fst (rx_lane SUB_value SUB_ctrl i source lane)) other 8
    = word_select (fst source) other 8
  /\ Z.testbit (snd (rx_lane SUB_value SUB_ctrl i source lane)) other
    = Z.testbit (snd source) other.
Proof.
  intros Hl Ho Hne. unfold rx_lane.
  destruct (Z.testbit (rx_code_error i) lane); cbn [fst snd];
    rewrite word_select_other, assign_bit_other by lia; auto.
Qed.

Lemma rx_datapath_lane (i : inputs) (lane : Z) :
  0 <= lane < Z.of_nat nwords ->
  word_select (source_data SUB_value SUB_ctrl i) lane 8
    = (if Z.testbit (rx_code_error i) lane
       then Z.land SUB_value (Z.ones 8)
       else word_select (rx_data i) lane 8)
  /\ Z.testbit (source_ctrl SUB_value SUB_ctrl i) lane
    = (if Z.testbit (rx_code_error i) lane
       then Z.testbit SUB_ctrl 0
       else Z.testbit (rx_ctrl i) lane).
Proof.
  intros Hl. change (Z.of_nat nwords) with 2 in Hl.
  unfold source_data, source_ctrl. rewrite rx_datapath_lanes.
  assert (Hc : lane = 0 \/ lane = 1) by lia.
  destruct Hc as [-> | ->].
  - destruct (rx_lane_other i (rx_lane SUB_value SUB_ctrl i (0, 0) 0) 1 0
                            ltac:(lia) ltac:(lia) ltac:(lia)) as [-> ->].
    apply rx_lane_same. lia.
  - apply rx_lane_same. lia.
Qed.
End Rx.

(** C4: for each of the two lanes, in the same tick: with the lane's bit
    of [rx_code_error] set, the lane's output byte and control bit are
    those of [SUB]; with it clear they are the lane's byte of [rx_data]
    and bit of [rx_ctrl].  The outputs are a function of the inputs of
    the tick alone, a lane's output depends on that lane's inputs only,
    and [source.valid] is always set. *)
Theorem rx_datapath_substitutes_per_lane
        (SUB_value SUB_ctrl : Z) (i : inputs) (lane : Z) :
  0 <= SUB_value < 2 ^ 8 -> 0 <= SUB_ctrl < 2 ->
  0 <= lane < Z.of_nat nwords ->
  (Z.testbit (rx_code_error i) lane = true ->
     word_select (source_data SUB_value SUB_ctrl i) lane 8 = SUB_value
     /\ Z.b2z (Z.testbit (source_ctrl SUB_value SUB_ctrl i) lane) = SUB_ctrl)
  /\ (Z.testbit (rx_code_error i) lane = false ->
     word_select (source_data SUB_value SUB_ctrl i) lane 8
       = word_select (rx_data i) lane 8
     /\ Z.testbit (source_ctrl SUB_value SUB_ctrl i) lane
       = Z.testbit (rx_ctrl i) lane)
  /\ (forall i' : inputs,
        Z.testbit (rx_code_error i') lane = Z.testbit (rx_code_error i) lane ->
        word_select (rx_data i') lane 8 = word_select (rx_data i) lane 8 ->
        Z.testbit (rx_ctrl i') lane = Z.testbit (rx_ctrl i) lane ->
        word_select (source_data SUB_value SUB_ctrl i') lane 8
          = word_select (source_data SUB_value SUB_ctrl i) lane 8
        /\ Z.testbit (source_ctrl SUB_value SUB_ctrl i') lane
          = Z.testbit (source_ctrl SUB_value SUB_ctrl i) lane)
  /\ source_valid i = true.
Proof.
  intros Hv Hc Hl.
  destruct (rx_datapath_lane SUB_value SUB_ctrl i lane Hl) as [Hd Hk].
  split; [|split; [|split]].
  - intros He. rewrite Hd, Hk, He. split.
    + apply land_ones_small; lia.
    + assert (Hcases : SUB_ctrl = 0 \/ SUB_ctrl = 1) by lia.
      destruct Hcases as [-> | ->]; reflexivity.
  - intros He. rewrite Hd, Hk, He. auto.
  - intros i' He Hd' Hk'.
    destruct (rx_datapath_lane SUB_value SUB_ctrl i' lane Hl) as [-> ->].
    rewrite Hd, Hk, He, Hd', Hk'. auto.
  - reflexivity.
Qed.

(** [SUB] as K28.4, [0x9C] with the control bit: lane 1 of a word with a
    decode error in that lane only. *)
Lemma rx_datapath_substitutes_per_lane_witness :
  word_select (source_data 0x9C 1 (Scenario.gtp_inputs true false false true 0xABCD 0 2)) 1 8 = 0x9C
  /\ Z.b2z (Z.testbit (source_ctrl 0x9C 1 (Scenario.gtp_inputs true false false true 0xABCD 0 2)) 1) = 1.
Proof.
  apply (rx_datapath_substitutes_per_lane 0x9C 1 (Scenario.gtp_inputs true false false true 0xABCD 0 2) 1);
    [simpl; lia | lia | simpl; lia | reflexivity].
Defined.

(** The raw mode as the original sentence has it fails twice.  In
    [GTP] after two edges of [tx] with the flag and the bit set, the
    latched bit is high and [tx_ctrl] is zero, not a copy of the bit.
    And at reset with the flag input set, 8b10b is still enabled: the
    flag acts only once latched. *)
Lemma raw_mode_leaves_tx_ctrl_zero :
  ~ (forall (p : params) (s : state) (i : inputs),
        reachable p s ->
        FFSynchronizer.o (tx_gpio_en_sync s) = true ->
        forall k, 0 <= k < 2 ->
          Z.testbit (tx_ctrl (tx_datapath s i)) k = FFSynchronizer.o (tx_gpio_sync s))
  /\ ~ (forall (p : params) (s : state) (i : inputs),
          reachable p s ->
          tx_gpio_en i = true ->
          tx_enable_8b10b (tx_datapath s i) = false).
Proof.
  split.
  - intros H.
    assert (Hr : reachable Scenario.params Scenario.gtp_gpio_state)
      by (eexists; reflexivity).
    specialize (H Scenario.params Scenario.gtp_gpio_state
                  (Scenario.gtp_inputs true true true true 0 0 0) Hr eq_refl
                  0 ltac:(lia)).
    vm_compute in H. discriminate H.
  - intros H.
    assert (Hr : reachable Scenario.params (reset_state Scenario.params))
      by (exists []; reflexivity).
    specialize (H Scenario.params (reset_state Scenario.params)
                  (Scenario.gtp_inputs true true true true 0 0 0) Hr eq_refl).
    vm_compute in H. discriminate H.
Qed.

(** C8, amended: the flag [tx_gpio_en] and the bit [tx_gpio] act through
    their copies latched into [tx], which after two edges of [tx] hold
    the inputs of the first of them and which edges of [ss] and [sync]
    leave alone.  With the latched flag set, 8b10b is disabled and every
    bit of [tx_data], [tx_char_disp_mode] and [tx_char_disp_val] is the
    latched bit, while [tx_ctrl] is zero; with it clear, 8b10b is enabled,
    [tx_data] and [tx_ctrl] are the sink's data and control and the
    disparity fields are zero.  8b10b is enabled exactly when the latched
    flag is clear, and [sink.ready] is always set. *)
Theorem tx_datapath_follows_latched_flag
        (p : params) (s : state) (i1 i2 j i : inputs) :
  0 <= sink_data i < 2 ^ 16 -> 0 <= sink_ctrl i < 2 ^ 2 ->
  (FFSynchronizer.o (tx_gpio_en_sync (tick_tx (tick_tx s i1) i2)) = tx_gpio_en i1
   /\ FFSynchronizer.o (tx_gpio_sync (tick_tx (tick_tx s i1) i2)) = tx_gpio i1
   /\ tx_datapath (tick_ss p s j) i = tx_datapath s i
   /\ tx_datapath (tick_sync s j) i = tx_datapath s i)
  /\ (tx_gpio_en i1 = true ->
      tx_enable_8b10b (tx_datapath (tick_tx (tick_tx s i1) i2) i) = false
      /\ (forall k, 0 <= k < 16 ->
            Z.testbit (tx_data (tx_datapath (tick_tx (tick_tx s i1) i2) i)) k
              = tx_gpio i1)
      /\ (forall k, 0 <= k < 2 ->
            Z.testbit (tx_char_disp_mode (tx_datapath (tick_tx (tick_tx s i1) i2) i)) k
              = tx_gpio i1
            /\ Z.testbit (tx_char_disp_val (tx_datapath (tick_tx (tick_tx s i1) i2) i)) k
              = tx_gpio i1)
      /\ tx_ctrl (tx_datapath (tick_tx (tick_tx s i1) i2) i) = 0)
  /\ (tx_gpio_en i1 = false ->
      tx_enable_8b10b (tx_datapath (tick_tx (tick_tx s i1) i2) i) = true
      /\ tx_data (tx_datapath (tick_tx (tick_tx s i1) i2) i) = sink_data i
      /\ tx_ctrl (tx_datapath (tick_tx (tick_tx s i1) i2) i) = sink_ctrl i
      /\ tx_char_disp_mode (tx_datapath (tick_tx (tick_tx s i1) i2) i) = 0
      /\ tx_char_disp_val (tx_datapath (tick_tx (tick_tx s i1) i2) i) = 0)
  /\ (FFSynchronizer.o (tx_gpio_en_sync s) = true ->
      tx_enable_8b10b (tx_datapath s i) = false
      /\ (forall k, 0 <= k < 16 ->
            Z.testbit (tx_data (tx_datapath s i)) k = FFSynchronizer.o (tx_gpio_sync s))
      /\ (forall k, 0 <= k < 2 ->
            Z.testbit (tx_char_disp_mode (tx_datapath s i)) k
              = FFSynchronizer.o (tx_gpio_sync s)
            /\ Z.testbit (tx_char_disp_val (tx_datapath s i)) k
              = FFSynchronizer.o (tx_gpio_sync s))
      /\ tx_ctrl (tx_datapath s i) = 0)
  /\ (FFSynchronizer.o (tx_gpio_en_sync s) = false ->
      tx_enable_8b10b (tx_datapath s i) = true
      /\ tx_data (tx_datapath s i) = sink_data i
      /\ tx_ctrl (tx_datapath s i) = sink_ctrl i
      /\ tx_char_disp_mode (tx_datapath s i) = 0
      /\ tx_char_disp_val (tx_datapath s i) = 0)
  /\ tx_enable_8b10b (tx_datapath s i) = negb (FFSynchronizer.o (tx_gpio_en_sync s))
  /\ sink_ready s i = true.
Proof.
  intros Hd Hc.
  assert (Hraw : forall s0 : state,
            FFSynchronizer.o (tx_gpio_en_sync s0) = true ->
            tx_enable_8b10b (tx_datapath s0 i) = false
            /\ (forall k, 0 <= k < 16 ->
                  Z.testbit (tx_data (tx_datapath s0 i)) k
                    = FFSynchronizer.o (tx_gpio_sync s0))
            /\ (forall k, 0 <= k < 2 ->
                  Z.testbit (tx_char_disp_mode (tx_datapath s0 i)) k
                    = FFSynchronizer.o (tx_gpio_sync s0)
                  /\ Z.testbit (tx_char_disp_val (tx_datapath s0 i)) k
                    = FFSynchronizer.o (tx_gpio_sync s0))
            /\ tx_ctrl (tx_datapath s0 i) = 0).
  { intros s0 E. unfold tx_datapath. rewrite E.
    change (8 * Z.of_nat nwords) with 16. change (Z.of_nat nwords) with 2.
    change (8 * nwords)%nat with 16%nat. change nwords with 2%nat.
    cbn [tx_enable_8b10b tx_data tx_ctrl tx_char_disp_mode tx_char_disp_val].
    unfold trunc.
    pose proof (Repl_range (FFSynchronizer.o (tx_gpio_sync s0)) 16) as R16.
    pose proof (Repl_range (FFSynchronizer.o (tx_gpio_sync s0)) 2) as R2.
    change (Z.of_nat 16) with 16 in R16. change (Z.of_nat 2) with 2 in R2.
    rewrite !Z.mod_small by lia.
    split; [reflexivity|]. split; [|split; [|reflexivity]].
    - intros k Hk. apply Repl_testbit. lia.
    - intros k Hk. split; apply Repl_testbit; lia. }
  assert (Hnormal : forall s0 : state,
            FFSynchronizer.o (tx_gpio_en_sync s0) = false ->
            tx_enable_8b10b (tx_datapath s0 i) = true
            /\ tx_data (tx_datapath s0 i) = sink_data i
            /\ tx_ctrl (tx_datapath s0 i) = sink_ctrl i
            /\ tx_char_disp_mode (tx_datapath s0 i) = 0
            /\ tx_char_disp_val (tx_datapath s0 i) = 0).
  { intros s0 E. unfold tx_datapath. rewrite E.
    change (8 * Z.of_nat nwords) with 16. change (Z.of_nat nwords) with 2.
    cbn [tx_enable_8b10b tx_data tx_ctrl tx_char_disp_mode tx_char_disp_val].
    unfold trunc. rewrite !Z.mod_small by lia. auto. }
  assert (Hen : FFSynchronizer.o (tx_gpio_en_sync (tick_tx (tick_tx s i1) i2))
                = tx_gpio_en i1) by reflexivity.
  assert (Hbit : FFSynchronizer.o (tx_gpio_sync (tick_tx (tick_tx s i1) i2))
                 = tx_gpio i1) by reflexivity.
  split; [repeat split; reflexivity|].
  split; [|split; [|split; [|split; [|split]]]].
  - intros E. rewrite <- Hbit. apply Hraw. rewrite Hen. exact E.
  - intros E. apply Hnormal. rewrite Hen. exact E.
  - apply Hraw.
  - apply Hnormal.
  - unfold tx_datapath. destruct (FFSynchronizer.o (tx_gpio_en_sync s)); reflexivity.
  - reflexivity.
Qed.

(** [GTP] at reset, the flag and the bit set at the first of two edges
    of [tx]: raw mode, all of [tx_data] high. *)
Lemma tx_datapath_follows_latched_flag_witness :
  Z.testbit
    (tx_data
       (tx_datapath
          (tick_tx (tick_tx (reset_state Scenario.params)
                            (Scenario.gtp_inputs true true true true 0 0 0))
                   (Scenario.gtp_inputs true false false true 0 0 0))
          (Scenario.gtp_inputs true false false true 0 0 0))) 5
    = true.
Proof.
  destruct (tx_datapath_follows_latched_flag
              Scenario.params (reset_state Scenario.params)
              (Scenario.gtp_inputs true true true true 0 0 0)
              (Scenario.gtp_inputs true false false true 0 0 0)
              (Scenario.gtp_inputs true false false true 0 0 0)
              (Scenario.gtp_inputs true false false true 0 0 0)
              ltac:(simpl; lia) ltac:(simpl; lia)) as (_ & Hraw & _).
  destruct (Hraw eq_refl) as (_ & Hbits & _).
  exact (Hbits 5 ltac:(lia)).
Defined.

End GTPDatapath.


(** ** The bringup controllers *)

Module GTPInitFacts.
Import Nmigen.

(** The reset inserted by [ResetInserter(reset_self)] is a reset of
    [sync]; the registers of both controllers are driven from [ss] (and
    the one synchronizer in [sync] is [reset_less]), so a clock edge
    leaves them as it would with no reset inserted at all. *)
Lemma tx_tick_without_reset (p : GTPTXInit.params) (s : GTPTXInit.state)
      (i : GTPTXInit.inputs) :
  GTPTXInit.tick p s i = GTPTXInit.tick_with (fun _ => []) p s i.
Proof. reflexivity. Qed.

Lemma rx_tick_without_reset (p : GTPRXInit.params) (s : GTPRXInit.state)
      (i : GTPRXInit.inputs) :
  GTPRXInit.tick p s i = GTPRXInit.tick_with (fun _ => []) p s i
  /\ GTPRXInit.tick_sync s i = GTPRXInit.tick_sync_with (fun _ => []) s i.
Proof. split; reflexivity. Qed.

(** Had the reset been inserted into [ss], every tick with [reset_self]
    set would be followed by [POWER-DOWN] with [done] clear. *)
Lemma tx_reset_in_ss_would_power_down (p : GTPTXInit.params)
      (s : GTPTXInit.state) (i i' : GTPTXInit.inputs) :
  GTPTXInit.reset_self s i = true ->
  GTPTXInit.fsm
    (GTPTXInit.tick_with (fun r => ResetInserter_dict [(ss, r)]) p s i)
    = GTPTXInit.POWER_DOWN
  /\ GTPTXInit.done
       (GTPTXInit.fsm_comb
          (GTPTXInit.tick_with (fun r => ResetInserter_dict [(ss, r)]) p s i) i')
     = false.
Proof.
  intros H. unfold GTPTXInit.tick_with, GTPTXInit.fsm_comb. cbn.
  rewrite H. split; reflexivity.
Qed.

Lemma rx_reset_in_ss_would_power_down (p : GTPRXInit.params)
      (s : GTPRXInit.state) (i i' : GTPRXInit.inputs) :
  GTPRXInit.reset_self s i = true ->
  GTPRXInit.fsm
    (GTPRXInit.tick_with (fun r => ResetInserter_dict [(ss, r)]) p s i)
    = GTPRXInit.POWER_DOWN
  /\ GTPRXInit.done
       (GTPRXInit.fsm_comb
          (GTPRXInit.tick_with (fun r => ResetInserter_dict [(ss, r)]) p s i) i')
     = false.
Proof.
  intros H. unfold GTPRXInit.tick_with, GTPRXInit.fsm_comb. cbn.
  rewrite H. split; reflexivity.
Qed.

(** The one restart the FSMs act on: the transition out of [READY]. *)
Lemma tx_restart_in_READY (p : GTPTXInit.params) (s : GTPTXInit.state)
      (i i' : GTPTXInit.inputs) :
  GTPTXInit.fsm s = GTPTXInit.READY -> GTPTXInit.restart i = true ->
  GTPTXInit.fsm (GTPTXInit.tick p s i) = GTPTXInit.POWER_DOWN
  /\ GTPTXInit.done (GTPTXInit.fsm_comb (GTPTXInit.tick p s i) i') = false.
Proof.
  intros Hs Hr. unfold GTPTXInit.tick, GTPTXInit.tick_with, GTPTXInit.fsm_comb.
  cbn. rewrite Hs, Hr. split; reflexivity.
Qed.

Lemma rx_restart_in_READY (p : GTPRXInit.params) (s : GTPRXInit.state)
      (i i' : GTPRXInit.inputs) :
  GTPRXInit.fsm s = GTPRXInit.READY -> GTPRXInit.restart i = true ->
  GTPRXInit.fsm (GTPRXInit.tick p s i) = GTPRXInit.POWER_DOWN
  /\ GTPRXInit.done (GTPRXInit.fsm_comb (GTPRXInit.tick p s i) i') = false.
Proof.
  intros Hs Hr. unfold GTPRXInit.tick, GTPRXInit.tick_with, GTPRXInit.fsm_comb.
  cbn. rewrite Hs, Hr. split; reflexivity.
Qed.

(** No other state returns to [POWER-DOWN], whatever [restart] and the
    watchdog say. *)
Lemma tx_only_READY_powers_down (p : GTPTXInit.params) (s : GTPTXInit.state)
      (i : GTPTXInit.inputs) :
  GTPTXInit.fsm s <> GTPTXInit.READY ->
  GTPTXInit.fsm (GTPTXInit.tick p s i) <> GTPTXInit.POWER_DOWN.
Proof.
  intros Hs. unfold GTPTXInit.tick, GTPTXInit.tick_with, GTPTXInit.fsm_comb. cbn.
  destruct (GTPTXInit.fsm s); cbn; try discriminate; try congruence.
  - destruct (GTPTXInit.drp_done i); discriminate.
  - destruct (FFSynchronizer.o (GTPTXInit.plllock_sync s)); discriminate.
  - destruct (WaitTimer.done (GTPTXInit.init_delay s)); discriminate.
  - destruct (FFSynchronizer.o (GTPTXInit.txresetdone_sync s)); discriminate.
Qed.

Lemma rx_only_READY_powers_down (p : GTPRXInit.params) (s : GTPRXInit.state)
      (i : GTPRXInit.inputs) :
  GTPRXInit.fsm s <> GTPRXInit.READY ->
  GTPRXInit.fsm (GTPRXInit.tick p s i) <> GTPRXInit.POWER_DOWN.
Proof.
  intros Hs. unfold GTPRXInit.tick, GTPRXInit.tick_with, GTPRXInit.fsm_comb. cbn.
  destruct (GTPRXInit.fsm s); cbn; try discriminate; try congruence;
    match goal with
    | |- context [if ?c then _ else _] => destruct c; discriminate
    end.
Qed.

Lemma tx_done_iff_READY (s : GTPTXInit.state) (i : GTPTXInit.inputs) :
  GTPTXInit.done (GTPTXInit.fsm_comb s i) = true <-> GTPTXInit.fsm s = GTPTXInit.READY.
Proof.
  unfold GTPTXInit.fsm_comb. destruct (GTPTXInit.fsm s); cbn; split; congruence.
Qed.

Lemma rx_done_iff_READY (s : GTPRXInit.state) (i : GTPRXInit.inputs) :
  GTPRXInit.done (GTPRXInit.fsm_comb s i) = true <-> GTPRXInit.fsm s = GTPRXInit.READY.
Proof.
  unfold GTPRXInit.fsm_comb. destruct (GTPRXInit.fsm s); cbn; split; congruence.
Qed.

End GTPInitFacts.

Module GTPInitClaims.
Import Nmigen GTPInitFacts.

(** C3, at 125 MHz: the transmitter in [DRP] with [restart] set moves on
    to [WAIT-PLL-RESET], and waiting for the PLL at the tick its
    watchdog reports [done] it stays in [WAIT-PLL-RESET]; the receiver
    in [DRP_READ_ISSUE] with [restart] set stays there.  In none of the
    three is the next state [POWER-DOWN]. *)
Theorem restart_and_watchdog_leave_the_fsm_running :
  (GTPTXInit.fsm Scenario.tx_in_DRP = GTPTXInit.DRP
   /\ GTPTXInit.reset_self Scenario.tx_in_DRP (Scenario.tx_inputs true true) = true
   /\ GTPTXInit.fsm (GTPTXInit.tick Scenario.tx_params Scenario.tx_in_DRP
                                    (Scenario.tx_inputs true true))
      = GTPTXInit.WAIT_PLL_RESET)
  /\ (GTPTXInit.fsm Scenario.tx_watchdog_expired = GTPTXInit.WAIT_PLL_RESET
      /\ WaitTimer.done (GTPTXInit.watchdog Scenario.tx_watchdog_expired) = true
      /\ GTPTXInit.fsm (GTPTXInit.tick Scenario.tx_params Scenario.tx_watchdog_expired
                                       (Scenario.tx_inputs false false))
         = GTPTXInit.WAIT_PLL_RESET)
  /\ (GTPRXInit.fsm Scenario.rx_in_READ_ISSUE = GTPRXInit.DRP_READ_ISSUE
      /\ GTPRXInit.reset_self Scenario.rx_in_READ_ISSUE
                              (Scenario.rx_inputs true true true 0) = true
      /\ GTPRXInit.fsm (GTPRXInit.tick Scenario.rx_params Scenario.rx_in_READ_ISSUE
                                       (Scenario.rx_inputs true true true 0))
         = GTPRXInit.DRP_READ_ISSUE).
Proof. vm_compute. repeat split. Qed.

(** C10: after every clock edge of [ss], each output port towards the
    transceiver holds the value the FSM decided in the tick before the
    edge: the ports are registers fed by the FSM's combinational
    decisions and by nothing else. *)
Theorem outputs_are_registered_fsm_decisions
        (p : GTPTXInit.params) (s : GTPTXInit.state) (i : GTPTXInit.inputs)
        (q : GTPRXInit.params) (r : GTPRXInit.state) (j : GTPRXInit.inputs) :
  (GTPTXInit.self_gttxreset (GTPTXInit.tick p s i)
     = GTPTXInit.gttxreset (GTPTXInit.fsm_comb s i)
   /\ GTPTXInit.self_gttxpd (GTPTXInit.tick p s i)
     = GTPTXInit.gttxpd (GTPTXInit.fsm_comb s i)
   /\ GTPTXInit.self_txdlysreset (GTPTXInit.tick p s i)
     = GTPTXInit.txdlysreset (GTPTXInit.fsm_comb s i)
   /\ GTPTXInit.self_txphinit (GTPTXInit.tick p s i)
     = GTPTXInit.txphinit (GTPTXInit.fsm_comb s i)
   /\ GTPTXInit.self_txphalign (GTPTXInit.tick p s i)
     = GTPTXInit.txphalign (GTPTXInit.fsm_comb s i)
   /\ GTPTXInit.self_txdlyen (GTPTXInit.tick p s i)
     = GTPTXInit.txdlyen (GTPTXInit.fsm_comb s i)
   /\ GTPTXInit.self_txuserrdy (GTPTXInit.tick p s i)
     = GTPTXInit.txuserrdy (GTPTXInit.fsm_comb s i))
  /\ (GTPRXInit.self_gtrxreset (GTPRXInit.tick q r j)
        = GTPRXInit.gtrxreset (GTPRXInit.fsm_comb r j)
      /\ GTPRXInit.self_gtrxpd (GTPRXInit.tick q r j)
        = GTPRXInit.gtrxpd (GTPRXInit.fsm_comb r j)
      /\ GTPRXInit.self_rxdlysreset (GTPRXInit.tick q r j)
        = GTPRXInit.rxdlysreset (GTPRXInit.fsm_comb r j)
      /\ GTPRXInit.self_rxphalign (GTPRXInit.tick q r j)
        = GTPRXInit.rxphalign (GTPRXInit.fsm_comb r j)
      /\ GTPRXInit.self_rxuserrdy (GTPRXInit.tick q r j)
        = GTPRXInit.rxuserrdy (GTPRXInit.fsm_comb r j))
  /\ (GTPRXInit.self_gtrxreset (GTPRXInit.tick_sync r j) = GTPRXInit.self_gtrxreset r
      /\ GTPRXInit.self_gtrxpd (GTPRXInit.tick_sync r j) = GTPRXInit.self_gtrxpd r
      /\ GTPRXInit.self_rxdlysreset (GTPRXInit.tick_sync r j)
        = GTPRXInit.self_rxdlysreset r
      /\ GTPRXInit.self_rxphalign (GTPRXInit.tick_sync r j) = GTPRXInit.self_rxphalign r
      /\ GTPRXInit.self_rxuserrdy (GTPRXInit.tick_sync r j)
        = GTPRXInit.self_rxuserrdy r).
Proof. repeat split. Qed.

End GTPInitClaims.

(** ** The receiver's read-modify-write of DRP register 0x011 *)

Module GTPRXInitDRP.
Import Nmigen NmigenFacts GTPRXInit.










End GTPRXInitDRP.

(** ** Enable, restart and ready in the composition *)

Module GTPReady.
Import Nmigen GTPInitFacts GTP.

Lemma reachable_gtp_READY : reachable Scenario.params Scenario.gtp_READY.
Proof. exists Scenario.gtp_to_READY. reflexivity. Qed.

(** [GTP] at 125 MHz, brought up with its enables set: in the tick in
    which the enables are deasserted both controllers are still in
    [READY], and [tx_ready], [rx_ready] and the wrapper's [ready] are
    all set. *)
Lemma ready_in_the_tick_enable_is_deasserted :
  ~ (forall (p : params) (s : state) (i : inputs),
        reachable p s ->
        (tx_enable i = false -> tx_ready s i = false)
        /\ (rx_enable i = false -> rx_ready s i = false)
        /\ (tx_enable i = false \/ rx_enable i = false ->
            LunaArtix7SerDes.ready s false i = false)).
Proof.
  intros H.
  destruct (H Scenario.params Scenario.gtp_READY
              (Scenario.gtp_inputs false false false false 0 0 0)
              reachable_gtp_READY) as [Htx _].
  specialize (Htx eq_refl). vm_compute in Htx. discriminate Htx.
Qed.

(** With the enables held low from reset the transmitter still walks
    through its sequence: five ticks after reset it reports ready. *)
Lemma tx_ready_while_disabled :
  tx_ready
    (run Scenario.params
         (repeat (Edge_ss (Scenario.gtp_inputs false false false false 0 0 0)) 5)
         (reset_state Scenario.params))
    (Scenario.gtp_inputs false false false false 0 0 0) = true.
Proof. reflexivity. Qed.

(** C9, amended: each controller's [restart] is the negation of its
    enable, so a deasserted enable sets the controller's [reset_self];
    [tx_ready] and [rx_ready] are the controllers' [done], set exactly
    in [READY], and the wrapper's [ready] is their conjunction with its
    one [enable] driving both.  A controller whose enable is deasserted
    while it is ready still reports ready in that tick; the next edge
    of [ss] takes it to [POWER-DOWN], where its ready output and the
    wrapper's [ready] are clear. *)
Theorem enable_deasserted_clears_ready_one_tick_later
        (p : params) (s : state) (i i' : inputs) (enable enable' : bool) :
  GTPTXInit.restart (tx_init_inputs i) = negb (tx_enable i)
  /\ GTPRXInit.restart (rx_init_inputs i) = negb (rx_enable i)
  /\ tx_enable (LunaArtix7SerDes.serdes_inputs enable i) = enable
  /\ rx_enable (LunaArtix7SerDes.serdes_inputs enable i) = enable
  /\ (tx_ready s i = true <-> GTPTXInit.fsm (tx_init s) = GTPTXInit.READY)
  /\ (rx_ready s i = true <-> GTPRXInit.fsm (rx_init s) = GTPRXInit.READY)
  /\ LunaArtix7SerDes.ready s enable i
     = tx_ready s (LunaArtix7SerDes.serdes_inputs enable i)
       && rx_ready s (LunaArtix7SerDes.serdes_inputs enable i)
  /\ (tx_enable i = false ->
      GTPTXInit.reset_self (tx_init s) (tx_init_inputs i) = true)
  /\ (rx_enable i = false ->
      GTPRXInit.reset_self (rx_init s) (rx_init_inputs i) = true)
  /\ (tx_enable i = false -> tx_ready s i = true ->
      GTPTXInit.fsm (tx_init (tick_ss p s i)) = GTPTXInit.POWER_DOWN
      /\ tx_ready (tick_ss p s i) i' = false
      /\ LunaArtix7SerDes.ready (tick_ss p s i) enable' i' = false)
  /\ (rx_enable i = false -> rx_ready s i = true ->
      GTPRXInit.fsm (rx_init (tick_ss p s i)) = GTPRXInit.POWER_DOWN
      /\ rx_ready (tick_ss p s i) i' = false
      /\ LunaArtix7SerDes.ready (tick_ss p s i) enable' i' = false).
Proof.
  split; [reflexivity|]. split; [reflexivity|].
  split; [reflexivity|]. split; [reflexivity|].
  split; [apply tx_done_iff_READY|]. split; [apply rx_done_iff_READY|].
  split; [reflexivity|].
  split; [|split; [|split]].
  - intros He. unfold GTPTXInit.reset_self. cbn. rewrite He. reflexivity.
  - intros He. unfold GTPRXInit.reset_self. cbn. rewrite He. apply orb_true_r.
  - intros He Hr. apply tx_done_iff_READY in Hr.
    assert (Hrestart : GTPTXInit.restart (tx_init_inputs i) = true)
      by (cbn; rewrite He; reflexivity).
    pose proof (tx_restart_in_READY (tx_params p) (tx_init s) (tx_init_inputs i))
      as Hpd.
    split; [exact (proj1 (Hpd (tx_init_inputs i') Hr Hrestart))|].
    split; [exact (proj2 (Hpd (tx_init_inputs i') Hr Hrestart))|].
    unfold LunaArtix7SerDes.ready.
    change (tx_ready (tick_ss p s i) (LunaArtix7SerDes.serdes_inputs enable' i'))
      with (GTPTXInit.done
              (GTPTXInit.fsm_comb
                 (GTPTXInit.tick (tx_params p) (tx_init s) (tx_init_inputs i))
                 (tx_init_inputs (LunaArtix7SerDes.serdes_inputs enable' i')))).
    rewrite (proj2 (Hpd _ Hr Hrestart)). reflexivity.
  - intros He Hr. apply rx_done_iff_READY in Hr.
    assert (Hrestart : GTPRXInit.restart (rx_init_inputs i) = true)
      by (cbn; rewrite He; reflexivity).
    pose proof (rx_restart_in_READY (rx_params p) (rx_init s) (rx_init_inputs i))
      as Hpd.
    split; [exact (proj1 (Hpd (rx_init_inputs i') Hr Hrestart))|].
    split; [exact (proj2 (Hpd (rx_init_inputs i') Hr Hrestart))|].
    unfold LunaArtix7SerDes.ready.
    change (rx_ready (tick_ss p s i) (LunaArtix7SerDes.serdes_inputs enable' i'))
      with (GTPRXInit.done
              (GTPRXInit.fsm_comb
                 (GTPRXInit.tick (rx_params p) (rx_init s) (rx_init_inputs i))
                 (rx_init_inputs (LunaArtix7SerDes.serdes_inputs enable' i')))).
    rewrite (proj2 (Hpd _ Hr Hrestart)). apply andb_false_r.
Qed.

(** [GTP] at 125 MHz, ready, with its enables deasserted: ready in that
    tick and cleared at the next. *)
Lemma enable_deasserted_clears_ready_one_tick_later_witness :
  tx_ready Scenario.gtp_READY (Scenario.gtp_inputs false false false false 0 0 0)
    = true
  /\ tx_ready (tick_ss Scenario.params Scenario.gtp_READY
                       (Scenario.gtp_inputs false false false false 0 0 0))
              (Scenario.gtp_inputs false false false false 0 0 0)
     = false
  /\ LunaArtix7SerDes.ready
       (tick_ss Scenario.params Scenario.gtp_READY
                (Scenario.gtp_inputs false false false false 0 0 0))
       false (Scenario.gtp_inputs false false false false 0 0 0)
     = false.
Proof.
  split; [reflexivity|].
  destruct (enable_deasserted_clears_ready_one_tick_later
              Scenario.params Scenario.gtp_READY
              (Scenario.gtp_inputs false false false false 0 0 0)
              (Scenario.gtp_inputs false false false false 0 0 0) false false)
    as (_ & _ & _ & _ & _ & _ & _ & _ & _ & Htx & _).
  destruct (Htx eq_refl eq_refl) as (_ & Hready & Htop).
  split; [exact Hready | exact Htop].
Defined.

End GTPReady.

(** * Further properties of the backend *)

(** ** WaitTimer *)

Module WaitTimerBehaviour.
Import Nmigen WaitTimer WaitTimerFacts.

Lemma run_repeat_add (t : Z) (a b : nat) (s : state) :
  run t (repeat true (a + b)) s = run t (repeat true b) (run t (repeat true a) s).
Proof. rewrite repeat_app. apply run_app. Qed.

(** A timer that is done and kept waiting stays done. *)
Lemma done_frozen (t : Z) (n : nat) (s : state) :
  done s = true -> done (run t (repeat true n) s) = true.
Proof.
  intros Hs. induction n as [|n IH]; [exact Hs|].
  rewrite run_snoc. unfold tick, tick_with, register, next_count. simpl.
  rewrite IH. simpl. exact IH.
Qed.

Lemma done_at_wrap (t : Z) :
  0 < t -> done (run t (repeat true (Z.to_nat (2 ^ width t - t))) (reset t)) = true.
Proof.
  intros Ht. pose proof (width_bound t ltac:(lia)) as Hw.
  remember (Z.to_nat (2 ^ width t - t)) as n eqn:En.
  destruct n as [|n]; [lia|].
  rewrite run_snoc. unfold tick, tick_with, register, next_count, done. simpl.
  rewrite count_climbs by lia.
  destruct (t + Z.of_nat n =? 0) eqn:E; [apply Z.eqb_eq in E; lia|].
  simpl. unfold trunc.
  replace (t + Z.of_nat n + 1) with (2 ^ width t) by lia.
  rewrite Z.mod_same by lia. reflexivity.
Qed.

(** The counter has one bit more than half its reset value needs. *)
Lemma width_tight (t : Z) : 0 < t -> 1 <= width t /\ 2 ^ (width t - 1) <= t.
Proof.
  intros Ht. unfold width, range_width, bits_for.
  replace (t + 1 - 1) with t by lia.
  change (if 0 <? 0 then Z.log2_up (0 + 1) else 1) with 1.
  apply Z.ltb_lt in Ht as Hb. rewrite Hb.
  pose proof (Z.log2_up_spec (t + 1) ltac:(lia)) as [Hlo _].
  assert (Hpos : 0 < Z.log2_up (t + 1)) by (apply Z.log2_up_pos; lia).
  rewrite Z.max_r by lia.
  replace (Z.log2_up (t + 1) - 1) with (Z.pred (Z.log2_up (t + 1))) by lia.
  lia.
Qed.

(** X2: with [wait] held from reset, [done] is set at every tick from
    the wrap-around on; the wrap-around comes no later than [t] ticks
    after reset, so [done] is set [t] ticks after reset, and it comes at
    exactly [t] ticks only for a power of two. *)
Theorem done_never_late (t : Z) (n : nat) :
  0 < t ->
  (2 ^ width t - t <= Z.of_nat n -> done (run t (repeat true n) (reset t)) = true)
  /\ 2 ^ width t - t <= t
  /\ done (run t (repeat true (Z.to_nat t)) (reset t)) = true
  /\ (2 ^ width t - t = t <-> exists k, 0 <= k /\ t = 2 ^ k).
Proof.
  intros Ht.
  pose proof (width_bound t ltac:(lia)) as Hw.
  destruct (width_tight t Ht) as [Hw1 Hlo].
  assert (Hdouble : 2 ^ width t = 2 * 2 ^ (width t - 1)).
  { rewrite <- Z.pow_succ_r by lia. f_equal. lia. }
  assert (Hfrom : forall m : nat, 2 ^ width t - t <= Z.of_nat m ->
                    done (run t (repeat true m) (reset t)) = true).
  { intros m Hm.
    replace m with (Z.to_nat (2 ^ width t - t) + (m - Z.to_nat (2 ^ width t - t)))%nat
      by lia.
    rewrite run_repeat_add. apply done_frozen, done_at_wrap, Ht. }
  split; [apply Hfrom|]. split; [lia|]. split; [apply Hfrom; lia|].
  split.
  - intros E. exists (width t - 1). split; lia.
  - intros (k & Hk & E).
    assert (Hk1 : width t - 1 <= k).
    { apply (Z.pow_le_mono_r_iff 2); lia. }
    assert (Hk2 : k < width t).
    { apply (Z.pow_lt_mono_r_iff 2); lia. }
    replace k with (width t - 1) in E by lia. lia.
Qed.

Lemma done_never_late_witness :
  done (run 62 (repeat true 10) (reset 62)) = true.
Proof.
  exact (proj1 (done_never_late 62 10 ltac:(lia)) ltac:(vm_compute; discriminate)).
Defined.

(** X3: whatever [wait] does, the counter stays within its signal:
    [0 <= count < 2^width]. *)
Theorem count_in_range (t : Z) (waits : list bool) :
  0 <= t ->
  0 <= count (run t waits (reset t)) < 2 ^ width t.
Proof.
  intros Ht. pose proof (width_bound t Ht) as Hw.
  assert (Hgen : forall s, 0 <= count s < 2 ^ width t ->
                   0 <= count (run t waits s) < 2 ^ width t).
  { induction waits as [|w waits IH]; intros s Hs; [exact Hs|].
    apply IH. unfold tick, tick_with, register, next_count. simpl.
    destruct w; [|lia].
    destruct (negb (done s)); [|exact Hs].
    unfold trunc. apply Z.mod_pos_bound. lia. }
  apply Hgen. simpl. lia.
Qed.

Lemma count_in_range_witness :
  0 <= count (run 125000 [true; false; true; true] (reset 125000))
    < 2 ^ width 125000.
Proof. apply (count_in_range 125000). lia. Defined.

Lemma done_from_wrap (t : Z) (n : nat) :
  0 < t -> (Z.to_nat (2 ^ width t - t) <= n)%nat ->
  done (run t (repeat true n) (reset t)) = true.
Proof.
  intros Ht Hn.
  replace n with (Z.to_nat (2 ^ width t - t) + (n - Z.to_nat (2 ^ width t - t)))%nat
    by lia.
  rewrite run_repeat_add. apply done_frozen, done_at_wrap, Ht.
Qed.

End WaitTimerBehaviour.

(** ** The configuration as [GTP] uses it *)

Module GTPConfigFacts.
Import GTPQuadPLL GTPQuadPLLFacts GTPQuadPLLClaims GTPConfig.

Lemma returns_grid_point (refclk_freq linerate : float) (config : RateConfig) :
  compute_config refclk_freq linerate = Returns config ->
  exists c, In c grid /\ feasible refclk_freq linerate c
            /\ config = config_at refclk_freq linerate c.
Proof.
  unfold compute_config.
  destruct (search refclk_freq linerate) as [config'|] eqn:S; [|discriminate].
  intros [= <-].
  destruct (search_some _ _ _ S) as (before & c & after & Hg & Hc & Hf & _).
  exists c. repeat split; auto.
  rewrite Hg. apply in_or_app. right. left. reflexivity.
Qed.

Lemma grid_dividers (c : Z * Z * Z * Z) :
  In c grid ->
  let '(n1, n2, m, d) := c in
  (n1 = 4 \/ n1 = 5) /\ 1 <= n2 <= 5 /\ (m = 1 \/ m = 2)
  /\ In d [1; 2; 4; 8; 16].
Proof.
  intros Hin. vm_compute in Hin.
  repeat (destruct Hin as [<- | Hin];
          [repeat split; first [lia | left; reflexivity | right; reflexivity
                               | simpl; tauto]|]).
  destruct Hin.
Qed.

Lemma rxcdr_cfgs_has_every_divider (d : Z) :
  In d [1; 2; 4; 8; 16] -> exists cfg, getitem rxcdr_cfgs d = Some cfg.
Proof.
  intros Hd. simpl in Hd.
  destruct Hd as [<- | [<- | [<- | [<- | [<- | []]]]]]; eexists; reflexivity.
Qed.

(** X5: for every configuration [compute_config] returns, the dividers
    are among [n1 = 4,5], [n2 = 1..5], [m = 1,2], [d = 1,2,4,8,16], so the
    lookup [rxcdr_cfgs[config["d"]]] of [GTP.elaborate] finds its key:
    elaboration ends in the assertion on the line rate when the requested
    rate does not compare below [6.6e9], and otherwise gives the channel
    the table's entry and [d] as both output dividers. *)
Theorem elaborate_accepts_computed_config
        (refclk_freq linerate : float) (config : RateConfig) :
  compute_config refclk_freq linerate = Returns config ->
  ((n1 config = 4 \/ n1 config = 5) /\ 1 <= n2 config <= 5
   /\ (m config = 1 \/ m config = 2) /\ In (d config) [1; 2; 4; 8; 16])
  /\ (forall key, elaborate config <> KeyError key)
  /\ (elaborate config = AssertionError <-> PrimFloat.ltb linerate 6.6e9 = false)
  /\ (PrimFloat.ltb linerate 6.6e9 = true ->
      exists cfg,
        getitem rxcdr_cfgs (d config) = Some cfg
        /\ elaborate config = Elaborated cfg (d config) (d config)).
Proof.
  intros H.
  destruct (returns_grid_point _ _ _ H) as (c & Hin & Hf & Hc).
  pose proof (grid_dividers c Hin) as Hd.
  assert (Hl : GTPQuadPLL.linerate config = linerate)
    by (rewrite Hc; destruct c as [[[? ?] ?] ?]; reflexivity).
  assert (Hdiv : (n1 config = 4 \/ n1 config = 5) /\ 1 <= n2 config <= 5
                 /\ (m config = 1 \/ m config = 2) /\ In (d config) [1; 2; 4; 8; 16])
    by (rewrite Hc; destruct c as [[[? ?] ?] ?]; exact Hd).
  destruct (rxcdr_cfgs_has_every_divider _ (proj2 (proj2 (proj2 Hdiv)))) as [cfg Hcfg].
  split; [exact Hdiv|].
  unfold elaborate. rewrite Hl, Hcfg.
  destruct (PrimFloat.ltb linerate 6.6e9).
  - split; [discriminate|]. split.
    + split; discriminate.
    + intros _. exists cfg. auto.
  - split; [discriminate|]. split.
    + split; reflexivity.
    + discriminate.
Qed.

Lemma elaborate_accepts_computed_config_witness :
  exists cfg,
    getitem rxcdr_cfgs (d (config_at 100e6 1e9 (4, 5, 1, 4))) = Some cfg
    /\ elaborate (config_at 100e6 1e9 (4, 5, 1, 4)) = Elaborated cfg 4 4.
Proof.
  destruct (elaborate_accepts_computed_config
              100e6%float 1e9%float (config_at 100e6 1e9 (4, 5, 1, 4))
              ltac:(vm_compute; reflexivity)) as (_ & _ & _ & Hok).
  exact (Hok ltac:(vm_compute; reflexivity)).
Defined.

End GTPConfigFacts.

(** ** The LFPS pseudo-clock *)

Module LFPSFacts.
Import Nmigen LFPS.

Lemma after_mod (n : nat) : after n = Z.of_nat n mod 8.
Proof.
  induction n as [|n IH]; [reflexivity|].
  change (after (S n)) with (tick (after n)). rewrite IH. unfold tick, trunc.
  change (2 ^ 3) with 8. rewrite Z.add_mod_idemp_l by lia.
  f_equal. lia.
Qed.

Lemma msb_of_three_bits (x : Z) : 0 <= x < 8 -> Z.testbit x 2 = (4 <=? x).
Proof.
  intros Hx. rewrite Z.testbit_odd, Z.shiftr_div_pow2 by lia.
  change (2 ^ 2) with 4.
  destruct (Z.leb_spec 4 x).
  - replace (x / 4) with 1; [reflexivity|]. apply (Z.div_unique x 4 1 (x - 4)); lia.
  - rewrite Z.div_small by lia. reflexivity.
Qed.

(** X7: the pseudo-clock is the counter's top bit: [n] edges after reset
    it is high exactly when [n mod 8 >= 4], so it toggles every four
    edges of [ss] and has a period of eight with a 50% duty cycle. *)
Theorem lfps_logic_clk_period (n : nat) :
  lfps_logic_clk (after n) = (4 <=? Z.of_nat n mod 8)
  /\ lfps_logic_clk (after (n + 4)) = negb (lfps_logic_clk (after n))
  /\ lfps_logic_clk (after (n + 8)) = lfps_logic_clk (after n).
Proof.
  assert (Hclk : forall k, lfps_logic_clk (after k) = (4 <=? Z.of_nat k mod 8)).
  { intros k. unfold lfps_logic_clk. rewrite after_mod.
    apply msb_of_three_bits. apply Z.mod_pos_bound. lia. }
  rewrite !Hclk. split; [reflexivity|].
  pose proof (Z.mod_pos_bound (Z.of_nat n) 8 ltac:(lia)) as Hr.
  pose proof (Z.div_mod (Z.of_nat n) 8 ltac:(lia)) as Hq.
  split.
  - destruct (Z.leb_spec 4 (Z.of_nat n mod 8)) as [Hhi|Hlo].
    + replace (Z.of_nat (n + 4) mod 8) with (Z.of_nat n mod 8 - 4).
      * simpl. apply Z.leb_gt. lia.
      * apply (Z.mod_unique_pos _ 8 (Z.of_nat n / 8 + 1)); lia.
    + replace (Z.of_nat (n + 4) mod 8) with (Z.of_nat n mod 8 + 4).
      * simpl. apply Z.leb_le. lia.
      * apply (Z.mod_unique_pos _ 8 (Z.of_nat n / 8)); lia.
  - replace (Z.of_nat (n + 8)) with (Z.of_nat n + 1 * 8) by lia.
    rewrite Z.mod_add by lia. reflexivity.
Qed.

End LFPSFacts.

(** ** BucatiniPHY *)

Module BucatiniPHYFacts.
Import BucatiniPHY.

(** X8: the constructor raises its [ValueError] exactly for interface
    widths other than 8, 16 and 32, and never fails on the lookup that
    follows the membership test; for the three widths it accepts, the
    lookup gives the code 2, 1 or 0 and the constructor ends in the
    [TypeError] of [Const(code, width=2)]: no interface width gets a PHY
    constructed. *)
Theorem init_raises_for_every_width (INTERFACE_WIDTH : Z) :
  (__init__ INTERFACE_WIDTH = ValueError INTERFACE_WIDTH
   <-> INTERFACE_WIDTH <> 8 /\ INTERFACE_WIDTH <> 16 /\ INTERFACE_WIDTH <> 32)
  /\ (forall key, __init__ INTERFACE_WIDTH <> KeyError key)
  /\ (INTERFACE_WIDTH = 8 -> __init__ INTERFACE_WIDTH = TypeError 2)
  /\ (INTERFACE_WIDTH = 16 -> __init__ INTERFACE_WIDTH = TypeError 1)
  /\ (INTERFACE_WIDTH = 32 -> __init__ INTERFACE_WIDTH = TypeError 0)
  /\ (forall value, __init__ INTERFACE_WIDTH = TypeError value ->
        0 <= value < 2 ^ 2
        /\ forall W', __init__ W' = TypeError value -> W' = INTERFACE_WIDTH).
Proof.
  assert (Hcases : forall W,
            (W = 32 /\ __init__ W = TypeError 0)
            \/ (W = 16 /\ __init__ W = TypeError 1)
            \/ (W = 8 /\ __init__ W = TypeError 2)
            \/ (W <> 8 /\ W <> 16 /\ W <> 32 /\ __init__ W = ValueError W)).
  { intros W. unfold __init__, contains, _DATA_BUS_WIDTHS.
    cbn [existsb fst GTPConfig.getitem].
    destruct (Z.eqb_spec 32 W) as [<-|H32]; [left; split; reflexivity|].
    destruct (Z.eqb_spec 16 W) as [<-|H16]; [right; left; split; reflexivity|].
    destruct (Z.eqb_spec 8 W) as [<-|H8]; [right; right; left; split; reflexivity|].
    right; right; right. cbn [orb negb]. repeat split; congruence. }
  split; [|split; [|split; [|split; [|split]]]].
  - destruct (Hcases INTERFACE_WIDTH)
      as [[-> E] | [[-> E] | [[-> E] | (H8 & H16 & H32 & E)]]]; rewrite E;
      split; try discriminate; try lia; auto.
  - intros key.
    destruct (Hcases INTERFACE_WIDTH)
      as [[-> E] | [[-> E] | [[-> E] | (H8 & H16 & H32 & E)]]]; rewrite E;
      discriminate.
  - intros ->. reflexivity.
  - intros ->. reflexivity.
  - intros ->. reflexivity.
  - intros value Hv.
    assert (Hcode : forall W v, __init__ W = TypeError v ->
              (W = 32 /\ v = 0) \/ (W = 16 /\ v = 1) \/ (W = 8 /\ v = 2)).
    { intros W v Hw.
      destruct (Hcases W) as [[-> E] | [[-> E] | [[-> E] | (_ & _ & _ & E)]]];
        rewrite E in Hw; try discriminate; injection Hw as <-; auto. }
    destruct (Hcode _ _ Hv) as [[-> ->] | [[-> ->] | [-> ->]]];
      (split; [lia|]); intros W' Hw';
      destruct (Hcode _ _ Hw') as [[-> Hc] | [[-> Hc] | [-> Hc]]];
      congruence.
Qed.

Lemma init_raises_for_every_width_witness :
  __init__ 7 = ValueError 7 /\ __init__ 32 = TypeError 0.
Proof.
  split.
  - apply (proj1 (init_raises_for_every_width 7)). lia.
  - destruct (init_raises_for_every_width 32) as (_ & _ & _ & _ & H32 & _).
    apply H32. reflexivity.
Defined.

End BucatiniPHYFacts.

(** ** Registering interfaces with the DRP mux *)

Module DRPMuxRegistryFacts.
Import Nmigen DRP DRPMux DRPMuxFacts DRPMuxRegistry.

(** X9: [add_interface] gives the new interface the next index and
    leaves the registered ones at theirs: the selector values that
    reached an interface before still reach it, the value equal to the
    old number of interfaces reaches the new one, and the seventeenth
    registration makes [elaborate] fail its assertion. *)
Theorem add_interface_takes_next_index
        (interfaces : list request) (interface : request) (sel : Z) (bus : response) :
  (0 <= sel < Z.of_nat (length interfaces) ->
     bus_request sel (add_interface interfaces interface)
       = bus_request sel interfaces
     /\ nth (Z.to_nat sel)
            (responses sel (add_interface interfaces interface) bus) idle_response
        = bus)
  /\ bus_request (Z.of_nat (length interfaces)) (add_interface interfaces interface)
     = interface
  /\ nth (length interfaces)
         (responses (Z.of_nat (length interfaces))
                    (add_interface interfaces interface) bus) idle_response
     = bus
  /\ ((length interfaces < 16)%nat ->
      elaborate sel (add_interface interfaces interface) bus <> None)
  /\ ((16 <= length interfaces)%nat ->
      elaborate sel (add_interface interfaces interface) bus = None).
Proof.
  unfold add_interface.
  assert (Hlen : length (interfaces ++ [interface]) = S (length interfaces))
    by (rewrite length_app; simpl; lia).
  split; [|split; [|split; [|split]]].
  - intros Hsel. split.
    + unfold bus_request.
      replace sel with (0 + Z.of_nat (Z.to_nat sel)) by lia.
      rewrite (switch_hit (interfaces ++ [interface]) idle_request 0 (Z.to_nat sel))
        by (rewrite Hlen; lia).
      rewrite (switch_hit interfaces idle_request 0 (Z.to_nat sel)) by lia.
      rewrite app_nth1 by lia. reflexivity.
    + rewrite responses_nth, Hlen.
      assert (E : (Z.to_nat sel <? S (length interfaces))%nat = true)
        by (apply Nat.ltb_lt; lia).
      rewrite E. replace (Z.of_nat (Z.to_nat sel)) with sel by lia.
      rewrite Z.eqb_refl. reflexivity.
  - unfold bus_request.
    change (Z.of_nat (length interfaces)) with (0 + Z.of_nat (length interfaces)).
    rewrite (switch_hit (interfaces ++ [interface]) idle_request 0 (length interfaces))
      by (rewrite Hlen; lia).
    rewrite nth_middle. reflexivity.
  - rewrite responses_nth, Hlen.
    assert (E : (length interfaces <? S (length interfaces))%nat = true)
      by (apply Nat.ltb_lt; lia).
    rewrite E, Z.eqb_refl. reflexivity.
  - intros Hn. unfold elaborate. rewrite Hlen.
    assert (E : (S (length interfaces) <=? 16)%nat = true) by (apply Nat.leb_le; lia).
    rewrite E. discriminate.
  - intros Hn. unfold elaborate. rewrite Hlen.
    assert (E : (S (length interfaces) <=? 16)%nat = false) by (apply Nat.leb_gt; lia).
    rewrite E. reflexivity.
Qed.

(** The two registrations of [GTP]: the receiver's controller, then the
    external port. *)
Lemma add_interface_takes_next_index_witness :
  bus_request 0 (add_interface [mkRequest true true true 0x011 0x07FF] idle_request)
    = bus_request 0 [mkRequest true true true 0x011 0x07FF]
  /\ elaborate 1 (add_interface [mkRequest true true true 0x011 0x07FF] idle_request)
               idle_response <> None.
Proof.
  destruct (add_interface_takes_next_index
              [mkRequest true true true 0x011 0x07FF] idle_request 0 idle_response)
    as (Hold & _).
  destruct (add_interface_takes_next_index
              [mkRequest true true true 0x011 0x07FF] idle_request 1 idle_response)
    as (_ & _ & _ & Hok & _).
  split.
  - exact (proj1 (Hold ltac:(simpl; lia))).
  - exact (Hok ltac:(simpl; lia)).
Defined.

End DRPMuxRegistryFacts.

(** ** The transmitter's bringup *)

Module GTPTXInitBehaviour.
Import Nmigen GTPTXInit Bringup.

Lemma tx_run_cons (p : params) (i : inputs) (trace : list inputs) (s : state) :
  run p (i :: trace) s = run p trace (tick p s i).
Proof. reflexivity. Qed.

Lemma tx_run_snoc (p : params) (trace : list inputs) (i : inputs) (s : state) :
  run p (trace ++ [i]) s = tick p (run p trace s) i.
Proof. unfold run. rewrite fold_left_app. reflexivity. Qed.

Lemma tx_run_app (p : params) (a b : list inputs) (s : state) :
  run p (a ++ b) s = run p b (run p a s).
Proof. unfold run. apply fold_left_app. Qed.

(** A property of the reset state that every tick establishes holds
    after every run. *)
Lemma after_every_run (P : state -> Prop) (p : params) (trace : list inputs) :
  P (reset_state p) -> (forall s i, P (tick p s i)) ->
  P (run p trace (reset_state p)).
Proof.
  intros H0 Ht. destruct trace as [|i trace] using rev_ind; [exact H0|].
  rewrite tx_run_snoc. apply Ht.
Qed.

(** X10: in every run from reset the ports [txdlysreset], [txphinit] and
    [txphalign] stay low (the controller never starts a delay or phase
    alignment), [gttxreset] and [txuserrdy] are never high together,
    [gttxpd] is high only with [gttxreset], and [txdlyen] only with
    [txuserrdy]. *)
Theorem tx_outputs_consistent (p : params) (trace : list inputs) :
  self_txdlysreset (run p trace (reset_state p)) = false
  /\ self_txphinit (run p trace (reset_state p)) = false
  /\ self_txphalign (run p trace (reset_state p)) = false
  /\ self_gttxreset (run p trace (reset_state p))
       && self_txuserrdy (run p trace (reset_state p)) = false
  /\ (self_gttxpd (run p trace (reset_state p)) = true ->
      self_gttxreset (run p trace (reset_state p)) = true)
  /\ (self_txdlyen (run p trace (reset_state p)) = true ->
      self_txuserrdy (run p trace (reset_state p)) = true).
Proof.
  apply (after_every_run
           (fun s => self_txdlysreset s = false /\ self_txphinit s = false
                     /\ self_txphalign s = false
                     /\ self_gttxreset s && self_txuserrdy s = false
                     /\ (self_gttxpd s = true -> self_gttxreset s = true)
                     /\ (self_txdlyen s = true -> self_txuserrdy s = true))).
  - cbn. repeat split; congruence.
  - intros s i. unfold tick, tick_with, fsm_comb. cbn.
    destruct (fsm s); cbn; repeat split; congruence.
Qed.

Lemma tx_outputs_consistent_witness :
  self_gttxreset (run Scenario.tx_params [Scenario.tx_inputs false true]
                      (reset_state Scenario.tx_params)) = true.
Proof.
  apply (tx_outputs_consistent Scenario.tx_params [Scenario.tx_inputs false true]).
  reflexivity.
Defined.

(** X11: the FSM advances by at most one state per tick, so [n] ticks
    after reset it is at most [n] states down its sequence: [done] needs
    at least five ticks. *)
Theorem tx_rank_bounded_by_ticks (p : params) (trace : list inputs) :
  tx_rank (fsm (run p trace (reset_state p))) <= Z.of_nat (length trace)
  /\ (forall i, done (fsm_comb (run p trace (reset_state p)) i) = true ->
        (5 <= length trace)%nat).
Proof.
  assert (Hstep : forall s i, tx_rank (fsm (tick p s i)) <= tx_rank (fsm s) + 1).
  { intros s i. unfold tick, tick_with, fsm_comb. cbn.
    destruct (fsm s); cbn;
      repeat match goal with
             | |- context [if ?c then _ else _] => destruct c
             end; cbn; lia. }
  assert (Hrank : tx_rank (fsm (run p trace (reset_state p)))
                  <= Z.of_nat (length trace)).
  { induction trace as [|i trace IH] using rev_ind; [cbn; lia|].
    rewrite tx_run_snoc, length_app. cbn [length].
    pose proof (Hstep (run p trace (reset_state p)) i). lia. }
  split; [exact Hrank|].
  intros i Hd. unfold fsm_comb in Hd.
  destruct (fsm (run p trace (reset_state p))) eqn:E; cbn in Hd; try discriminate.
  cbn in Hrank. lia.
Qed.

Lemma tx_rank_bounded_by_ticks_witness :
  (5 <= length (repeat (Scenario.tx_inputs false true) 5))%nat.
Proof.
  apply (proj2 (tx_rank_bounded_by_ticks
                  Scenario.tx_params (repeat (Scenario.tx_inputs false true) 5))
               (Scenario.tx_inputs false true)).
  reflexivity.
Defined.

(** The settle timer runs on its own: after [n] ticks of the controller
    it has waited [n] ticks. *)
Lemma init_delay_runs (p : params) (trace : list inputs) (s : state) :
  init_delay (run p trace s)
  = WaitTimer.run (init_delay_t p) (repeat true (length trace)) (init_delay s).
Proof.
  revert s. induction trace as [|i trace IH]; intros s; [reflexivity|].
  rewrite tx_run_cons, IH. reflexivity.
Qed.

Lemma settled_step (p : params) (s : state) (i : inputs) :
  tx_ideal i -> tx_settled s ->
  tx_settled (tick p s i)
  /\ tx_rank (fsm (tick p s i)) = Z.min 5 (tx_rank (fsm s) + 1).
Proof.
  intros (Hr & Hl & Ht & Hd) (H1 & H2 & H3 & H4 & H5). split.
  - unfold tx_settled, tick, tick_with. cbn.
    repeat split; auto.
    unfold WaitTimer.tick_with, WaitTimer.next_count, register. cbn.
    rewrite H5. cbn. exact H5.
  - unfold tick, tick_with, fsm_comb, FFSynchronizer.o. cbn.
    destruct (fsm s); cbn; rewrite ?Hr, ?Hd, ?H2, ?H4, ?H5; reflexivity.
Qed.

Lemma settled_run (p : params) (trace : list inputs) (s : state) :
  Forall tx_ideal trace -> tx_settled s ->
  tx_settled (run p trace s)
  /\ tx_rank (fsm (run p trace s))
     = Z.min 5 (tx_rank (fsm s) + Z.of_nat (length trace)).
Proof.
  intros Hall. revert s. induction Hall as [|i trace Hi Hall IH]; intros s Hs.
  - split; [exact Hs|]. cbn.
    destruct (fsm s); cbn; lia.
  - destruct (settled_step p s i Hi Hs) as [Hs' Hr].
    rewrite tx_run_cons. destruct (IH _ Hs') as [Hs'' Hr'].
    split; [exact Hs''|]. rewrite Hr', Hr. cbn [length]. lia.
Qed.

Lemma latched (p : params) (trace : list inputs) (s : state) :
  Forall tx_ideal trace ->
  ((1 <= length trace)%nat ->
     FFSynchronizer.stage0 (plllock_sync (run p trace s)) = true
     /\ FFSynchronizer.stage0 (txresetdone_sync (run p trace s)) = true)
  /\ ((2 <= length trace)%nat ->
     FFSynchronizer.stage1 (plllock_sync (run p trace s)) = true
     /\ FFSynchronizer.stage1 (txresetdone_sync (run p trace s)) = true).
Proof.
  induction trace as [|i trace IH] using rev_ind; intros Hall.
  - split; cbn; lia.
  - apply Forall_app in Hall. destruct Hall as [Htr Hi].
    inversion Hi as [|? ? (Hr & Hl & Ht & Hd) _]; subst.
    destruct (IH Htr) as [IH0 _].
    rewrite tx_run_snoc, length_app. cbn [length]. split.
    + intros _. unfold tick, tick_with. cbn. auto.
    + intros Hlen. unfold tick, tick_with. cbn. apply IH0. lia.
Qed.

(** X12: with a device that answers at once (PLL locked, reset done) and
    no restart, the transmitter is in [READY] with [done] set once the
    settle timer has run out, at most five ticks later, and at every
    tick after that. *)
Theorem tx_reaches_READY (p : params) (trace : list inputs) :
  0 < init_delay_t p ->
  Forall tx_ideal trace ->
  (Nat.max 2 (tx_settle_ticks p) + 5 <= length trace)%nat ->
  fsm (run p trace (reset_state p)) = READY
  /\ forall i, done (fsm_comb (run p trace (reset_state p)) i) = true.
Proof.
  intros Ht Hall Hlen.
  set (M := Nat.max 2 (tx_settle_ticks p)) in *.
  rewrite <- (firstn_skipn M trace) in Hall |- *.
  apply Forall_app in Hall. destruct Hall as [Hhead Htail].
  assert (HM : length (firstn M trace) = M) by (rewrite length_firstn; lia).
  assert (Hrest : (5 <= length (skipn M trace))%nat) by (rewrite length_skipn; lia).
  rewrite tx_run_app.
  assert (Hs : tx_settled (run p (firstn M trace) (reset_state p))).
  { destruct (latched p (firstn M trace) (reset_state p) Hhead) as [L0 L1].
    destruct (L0 ltac:(lia)) as [A0 B0]. destruct (L1 ltac:(lia)) as [A1 B1].
    unfold tx_settled. repeat split; auto.
    rewrite init_delay_runs, HM. cbn [reset_state init_delay].
    apply WaitTimerBehaviour.done_from_wrap; [exact Ht | unfold tx_settle_ticks in M; lia]. }
  destruct (settled_run p _ _ Htail Hs) as [_ Hrank].
  assert (Hready : fsm (run p (skipn M trace) (run p (firstn M trace) (reset_state p)))
                   = READY).
  { destruct (fsm (run p (skipn M trace) (run p (firstn M trace) (reset_state p))));
      destruct (fsm (run p (firstn M trace) (reset_state p)));
      cbn [tx_rank] in Hrank; try reflexivity; lia. }
  split; [exact Hready|].
  intros i. unfold fsm_comb. rewrite Hready. reflexivity.
Qed.

(** At 125 MHz the settle timer takes two ticks: [READY] within seven. *)
Lemma tx_reaches_READY_witness :
  fsm (run Scenario.tx_params (repeat (Scenario.tx_inputs false true) 7)
           (reset_state Scenario.tx_params)) = READY.
Proof.
  apply (tx_reaches_READY Scenario.tx_params
           (repeat (Scenario.tx_inputs false true) 7)).
  - simpl. lia.
  - apply Forall_forall. intros i Hi. apply repeat_spec in Hi. subst i.
    repeat split.
  - vm_compute. repeat constructor.
Defined.

End GTPTXInitBehaviour.

(** ** The receiver's bringup *)

Module GTPRXInitBehaviour.
Import Nmigen NmigenFacts GTPRXInit Bringup.

Lemma rx_run_cons (p : params) (e : edge) (trace : list edge) (s : state) :
  run p (e :: trace) s = run p trace (step p s e).
Proof. reflexivity. Qed.

Lemma rx_run_snoc (p : params) (trace : list edge) (e : edge) (s : state) :
  run p (trace ++ [e]) s = step p (run p trace s) e.
Proof. unfold run. rewrite fold_left_app. reflexivity. Qed.

(** A property that every edge of a run preserves holds at its end. *)
Lemma run_invariant (P : state -> Prop) (p : params) (trace : list edge) (s : state) :
  P s -> (forall s' e, In e trace -> P s' -> P (step p s' e)) ->
  P (run p trace s).
Proof.
  revert s. induction trace as [|e trace IH]; intros s Hs Hstep; [exact Hs|].
  rewrite rx_run_cons. apply IH.
  - apply Hstep; [left; reflexivity | exact Hs].
  - intros s' e' He'. apply Hstep. right. exact He'.
Qed.

(** X13: in every run from reset the ports [rxdlysreset] and [rxphalign]
    stay low, [gtrxreset] and [rxuserrdy] are never high together, and
    [gtrxpd] is high only with [gtrxreset]. *)
Theorem rx_outputs_consistent (p : params) (trace : list edge) :
  self_rxdlysreset (run p trace (reset_state p)) = false
  /\ self_rxphalign (run p trace (reset_state p)) = false
  /\ self_gtrxreset (run p trace (reset_state p))
       && self_rxuserrdy (run p trace (reset_state p)) = false
  /\ (self_gtrxpd (run p trace (reset_state p)) = true ->
      self_gtrxreset (run p trace (reset_state p)) = true).
Proof.
  apply (run_invariant
           (fun s => self_rxdlysreset s = false /\ self_rxphalign s = false
                     /\ self_gtrxreset s && self_rxuserrdy s = false
                     /\ (self_gtrxpd s = true -> self_gtrxreset s = true))).
  - cbn. repeat split; congruence.
  - intros s [i|i] _ Hs; [|exact Hs].
    unfold step, tick, tick_with, fsm_comb. cbn.
    destruct (fsm s); cbn; repeat split; congruence.
Qed.

Lemma rx_outputs_consistent_witness :
  self_gtrxreset (run Scenario.rx_params
                      [Edge_ss (Scenario.rx_inputs false true true 0)]
                      (reset_state Scenario.rx_params)) = true.
Proof.
  apply (rx_outputs_consistent Scenario.rx_params
           [Edge_ss (Scenario.rx_inputs false true true 0)]).
  reflexivity.
Defined.

(** X14: the FSM advances by at most one state per edge of [ss] and not
    at all on an edge of [sync]: its position in the sequence is bounded
    by the number of [ss] edges since reset, and [done] needs at least
    ten of them. *)
Theorem rx_rank_bounded_by_ticks (p : params) (trace : list edge) :
  rx_rank (fsm (run p trace (reset_state p)))
    <= Z.of_nat (length (filter is_ss_edge trace))
  /\ (forall i, done (fsm_comb (run p trace (reset_state p)) i) = true ->
        (10 <= length (filter is_ss_edge trace))%nat).
Proof.
  assert (Hstep : forall s i, rx_rank (fsm (tick p s i)) <= rx_rank (fsm s) + 1).
  { intros s i. unfold tick, tick_with, fsm_comb. cbn.
    destruct (fsm s); cbn;
      repeat match goal with
             | |- context [if ?c then _ else _] => destruct c
             end; cbn; lia. }
  assert (Hrank : rx_rank (fsm (run p trace (reset_state p)))
                  <= Z.of_nat (length (filter is_ss_edge trace))).
  { induction trace as [|e trace IH] using rev_ind; [cbn; lia|].
    rewrite rx_run_snoc, filter_app, length_app.
    destruct e as [i|i]; cbn [filter is_ss_edge length step].
    - pose proof (Hstep (run p trace (reset_state p)) i). lia.
    - change (fsm (tick_sync (run p trace (reset_state p)) i))
        with (fsm (run p trace (reset_state p))). lia. }
  split; [exact Hrank|].
  intros i Hd. unfold fsm_comb in Hd.
  destruct (fsm (run p trace (reset_state p))) eqn:E; cbn in Hd; try discriminate.
  cbn [rx_rank] in Hrank. lia.
Qed.

Lemma rx_rank_bounded_by_ticks_witness :
  (10 <= length (filter is_ss_edge
                        (Scenario.rx_to_RESTORE_ISSUE
                           ++ repeat (Edge_ss (Scenario.rx_inputs false true false 0)) 3)))%nat.
Proof.
  apply (proj2 (rx_rank_bounded_by_ticks
                  Scenario.rx_params
                  (Scenario.rx_to_RESTORE_ISSUE
                     ++ repeat (Edge_ss (Scenario.rx_inputs false true false 0)) 3))
               (Scenario.rx_inputs false true false 0)).
  reflexivity.
Defined.

(** X15: [drp.en] is a pulse of one tick, and the controller starts no
    further access before the bus has answered: after a tick with
    [drp.en] set, [drp.en] and [drp.we] stay clear and the FSM stays
    where it is over any edges that do not bring [drp.rdy].  [drp.we] is
    set only together with [drp.en]. *)
Theorem rx_waits_for_rdy (p : params) (s : state) (i j : inputs) (trace : list edge) :
  drp_en (fsm_comb s i) = true ->
  Forall (fun e => edge_drp_rdy e = false) trace ->
  drp_en (fsm_comb (run p trace (tick p s i)) j) = false
  /\ drp_we (fsm_comb (run p trace (tick p s i)) j) = false
  /\ fsm (run p trace (tick p s i)) = fsm (tick p s i)
  /\ (forall s' k, drp_we (fsm_comb s' k) = true -> drp_en (fsm_comb s' k) = true).
Proof.
  intros Hen Hall.
  assert (Hwait : fsm (tick p s i) = DRP_READ_WAIT \/ fsm (tick p s i) = DRP_MOD_WAIT
                  \/ fsm (tick p s i) = DRP_RESTORE_WAIT).
  { unfold tick, tick_with, fsm_comb in *. cbn in *.
    destruct (fsm s); cbn in *; try discriminate; auto. }
  assert (Hstay : fsm (run p trace (tick p s i)) = fsm (tick p s i)).
  { generalize dependent (tick p s i). intros s0 Hw.
    revert s0 Hw. induction Hall as [|e trace He Hall IH]; intros s0 Hw; [reflexivity|].
    rewrite rx_run_cons.
    assert (Hsame : fsm (step p s0 e) = fsm s0).
    { destruct e as [k|k]; [|reflexivity].
      cbn in He. unfold step, tick, tick_with, fsm_comb. cbn.
      destruct Hw as [-> | [-> | ->]]; cbn; rewrite He; reflexivity. }
    rewrite IH by (rewrite Hsame; exact Hw). exact Hsame. }
  split; [|split; [|split]].
  - unfold fsm_comb. rewrite Hstay.
    destruct Hwait as [-> | [-> | ->]]; reflexivity.
  - unfold fsm_comb. rewrite Hstay.
    destruct Hwait as [-> | [-> | ->]]; reflexivity.
  - exact Hstay.
  - intros s' k. unfold fsm_comb. destruct (fsm s'); cbn; congruence.
Qed.

Lemma rx_waits_for_rdy_witness :
  drp_en (fsm_comb
            (run Scenario.rx_params
                 (repeat (Edge_ss (Scenario.rx_inputs false false false 0)) 3)
                 (tick Scenario.rx_params
                       (run Scenario.rx_params Scenario.rx_to_MOD_ISSUE
                            (reset_state Scenario.rx_params))
                       (Scenario.rx_inputs false false false 0)))
            (Scenario.rx_inputs false false false 0)) = false.
Proof.
  apply (rx_waits_for_rdy Scenario.rx_params
           (run Scenario.rx_params Scenario.rx_to_MOD_ISSUE
                (reset_state Scenario.rx_params))
           (Scenario.rx_inputs false false false 0)
           (Scenario.rx_inputs false false false 0)
           (repeat (Edge_ss (Scenario.rx_inputs false false false 0)) 3)).
  - reflexivity.
  - repeat constructor.
Defined.

(** X16: the receiver cannot complete its bringup without seeing
    [rxpmaresetdone] fall: in a run from reset over which that input is
    constant, the FSM never gets past [WAIT_PMARST_FALL], the original
    register value is never written back and [done] is never set. *)
Theorem rx_needs_pmareset_fall (p : params) (trace : list edge) (level : bool) :
  Forall (fun e => edge_rxpmaresetdone e = level) trace ->
  rx_rank (fsm (run p trace (reset_state p))) <= 6
  /\ fsm (run p trace (reset_state p)) <> DRP_RESTORE_ISSUE
  /\ forall i, done (fsm_comb (run p trace (reset_state p)) i) = false.
Proof.
  intros Hall.
  assert (Hinv :
    (fun s => (rxpmaresetdone_r s = true ->
               FFSynchronizer.stage1 (rxpmaresetdone_sync s) = true)
              /\ (FFSynchronizer.stage1 (rxpmaresetdone_sync s) = true ->
                  FFSynchronizer.stage0 (rxpmaresetdone_sync s) = true)
              /\ (FFSynchronizer.stage0 (rxpmaresetdone_sync s) = true -> level = true)
              /\ rx_rank (fsm s) <= 6)
      (run p trace (reset_state p))).
  { apply run_invariant.
    - cbn. repeat split; discriminate.
    - intros s e He (Hr & H1 & H0 & Hk).
      rewrite Forall_forall in Hall. specialize (Hall e He).
      destruct e as [i|i]; cbn in Hall.
      + unfold step, tick, tick_with, fsm_comb, FFSynchronizer.o. cbn.
        repeat split; auto.
        destruct (fsm s); cbn in Hk |- *; try lia;
          repeat match goal with
                 | |- context [if ?c then _ else _] => destruct c eqn:?
                 end; cbn; try lia.
        exfalso.
        destruct (rxpmaresetdone_r s); [|discriminate].
        rewrite (Hr eq_refl) in *. discriminate.
      + unfold step, tick_sync, tick_sync_with. cbn.
        repeat split; auto.
        * intros E. rewrite Hall. exact (H0 E).
        * intros E. rewrite <- Hall. exact E. }
  destruct Hinv as (_ & _ & _ & Hk).
  split; [exact Hk|]. split.
  - intros E. rewrite E in Hk. cbn in Hk. lia.
  - intros i. unfold fsm_comb.
    destruct (fsm (run p trace (reset_state p))); cbn in Hk |- *; try reflexivity; lia.
Qed.

Lemma rx_needs_pmareset_fall_witness :
  rx_rank (fsm (run Scenario.rx_params
                    (repeat (Edge_sync (Scenario.rx_inputs false true true 0x0FFF)) 2
                     ++ repeat (Edge_ss (Scenario.rx_inputs false true true 0x0FFF)) 20)
                    (reset_state Scenario.rx_params))) <= 6.
Proof.
  apply (rx_needs_pmareset_fall Scenario.rx_params _ true).
  repeat constructor.
Defined.

(** X17: the data the controller drives on its DRP port always fits the
    16-bit bus, in every run from reset, and its address fits the nine
    address bits. *)
Theorem rx_drp_request_fits_bus (p : params) (trace : list edge)
        (clock : bool) (i : inputs) :
  0 <= DRP.di (drp_request clock (run p trace (reset_state p)) i) < 2 ^ 16
  /\ 0 <= DRP.addr (drp_request clock (run p trace (reset_state p)) i) < 2 ^ 9.
Proof.
  assert (Hv : (fun s => 0 <= drpvalue s < 2 ^ 16) (run p trace (reset_state p))).
  { apply run_invariant.
    - cbn. lia.
    - intros s [k|k] _ Hs; [|exact Hs].
      unfold step, tick, tick_with, fsm_comb. cbn.
      destruct (fsm s); cbn; try exact Hs.
      destruct (DRP.rdy (drp k)); [|exact Hs].
      unfold trunc. apply Z.mod_pos_bound. lia. }
  cbn beta in Hv. split; [|cbn; lia].
  unfold drp_request. cbn [DRP.di].
  destruct (drpmask _); [|exact Hv].
  change 0xf7ff with (Z.land 0xf7ff (Z.ones 16)).
  rewrite Z.land_assoc, Z.land_ones by lia.
  apply Z.mod_pos_bound. lia.
Qed.

End GTPRXInitBehaviour.

(** ** The controllers once ready, and inside [GTP] *)

Module GTPBehaviour.
Import Nmigen NmigenFacts Bringup.

(** X18: a controller in [READY] stays there for as long as [restart] is
    low, whatever the PLL lock, the reset-done lines, the DRP port and
    its watchdog do: a lock lost after bringup goes unnoticed. *)
Theorem ready_until_restart
        (p : GTPTXInit.params) (s : GTPTXInit.state) (trace : list GTPTXInit.inputs)
        (q : GTPRXInit.params) (r : GTPRXInit.state) (edges : list GTPRXInit.edge) :
  (GTPTXInit.fsm s = GTPTXInit.READY ->
   Forall (fun i => GTPTXInit.restart i = false) trace ->
   GTPTXInit.fsm (GTPTXInit.run p trace s) = GTPTXInit.READY)
  /\ (GTPRXInit.fsm r = GTPRXInit.READY ->
      Forall (fun e => edge_restart e = false) edges ->
      GTPRXInit.fsm (GTPRXInit.run q edges r) = GTPRXInit.READY).
Proof.
  split.
  - intros Hs Hall. revert s Hs.
    induction Hall as [|i trace Hi Hall IH]; intros s Hs; [exact Hs|].
    rewrite GTPTXInitBehaviour.tx_run_cons. apply IH.
    unfold GTPTXInit.tick, GTPTXInit.tick_with, GTPTXInit.fsm_comb. cbn.
    rewrite Hs, Hi. reflexivity.
  - intros Hr Hall. revert r Hr.
    induction Hall as [|e edges He Hall IH]; intros r Hr; [exact Hr|].
    rewrite GTPRXInitBehaviour.rx_run_cons. apply IH.
    destruct e as [i|i]; [|exact Hr]. cbn in He.
    unfold GTPRXInit.step, GTPRXInit.tick, GTPRXInit.tick_with, GTPRXInit.fsm_comb.
    cbn. rewrite Hr, He. reflexivity.
Qed.

(** The transmitter of the ready [GTP], with the PLL lock and the reset
    done lost. *)
Lemma ready_until_restart_witness :
  GTPTXInit.fsm
    (GTPTXInit.run Scenario.tx_params (repeat (Scenario.tx_inputs false false) 100)
                   (GTP.tx_init Scenario.gtp_READY))
    = GTPTXInit.READY.
Proof.
  apply (proj1 (ready_until_restart
                  Scenario.tx_params (GTP.tx_init Scenario.gtp_READY)
                  (repeat (Scenario.tx_inputs false false) 100)
                  Scenario.rx_params (GTP.rx_init Scenario.gtp_READY) [])).
  - reflexivity.
  - apply Forall_forall. intros i Hi. apply repeat_spec in Hi. subst i. reflexivity.
Defined.

(** X19: inside [GTP] the two controllers run side by side: after any
    run the transmitter's controller is where it would be on its own
    with the inputs of the [ss] edges, and the receiver's where it would
    be with those of the [ss] and [sync] edges; edges of [tx] touch
    neither. *)
Theorem controllers_run_independently
        (p : GTP.params) (trace : list GTP.edge) (s : GTP.state) :
  GTP.tx_init (GTP.run p trace s)
    = GTPTXInit.run (GTP.tx_params p) (tx_trace trace) (GTP.tx_init s)
  /\ GTP.rx_init (GTP.run p trace s)
    = GTPRXInit.run (GTP.rx_params p) (rx_trace trace) (GTP.rx_init s).
Proof.
  revert s. induction trace as [|e trace IH]; intros s; [split; reflexivity|].
  change (GTP.run p (e :: trace) s) with (GTP.run p trace (GTP.step p s e)).
  destruct (IH (GTP.step p s e)) as [-> ->].
  destruct e as [i|i|i]; split; reflexivity.
Qed.

(** X20: nothing drives the selector of the mux inside [GTP], so the
    external [drp] port is never served: whatever it requests, the
    channel's DRP port carries the request of the receiver's controller
    (always at address 0x011), the controller sees the channel's
    [DRPRDY] and [DRPDO], and the external port sees no [rdy] and no
    data. *)
Theorem external_drp_never_served (s : GTP.state) (i : GTP.inputs) :
  GTP.drp_bus s i
    = GTPRXInit.drp_request (GTP.ss_clock i) (GTP.rx_init s) (GTP.rx_init_inputs i)
  /\ DRP.addr (GTP.drp_bus s i) = 0x011
  /\ GTPRXInit.drp (GTP.rx_init_inputs i) = DRP.mkResponse (GTP.DRPRDY i) (GTP.DRPDO i)
  /\ nth 1 (GTP.drp_responses i) DRP.idle_response = DRP.idle_response
  /\ (forall i',
        GTP.ss_clock i' = GTP.ss_clock i ->
        GTP.rx_init_inputs i' = GTP.rx_init_inputs i ->
        GTP.drp_bus s i' = GTP.drp_bus s i).
Proof.
  split; [reflexivity|]. split; [reflexivity|]. split; [reflexivity|].
  split; [reflexivity|].
  intros i' Hc Hr.
  unfold GTP.drp_bus, GTP.drp_interfaces, DRPMux.bus_request. cbn.
  rewrite Hc, Hr. reflexivity.
Qed.

(** The ready [GTP] with the external port asking for a write. *)
Lemma external_drp_never_served_witness :
  GTP.drp_bus Scenario.gtp_READY
              {| GTP.tx_enable := true; GTP.rx_enable := true;
                 GTP.tx_gpio_en := false; GTP.tx_gpio := false;
                 GTP.sink_data := 0x1234; GTP.sink_ctrl := 1;
                 GTP.drp := DRP.mkRequest true true true 0x0A5 0xFFFF;
                 GTP.ss_clock := false; GTP.qpll_lock := true;
                 GTP.TXRESETDONE := true; GTP.TXDLYSRESETDONE := true;
                 GTP.TXPHINITDONE := true; GTP.TXPHALIGNDONE := true;
                 GTP.RXRESETDONE := true; GTP.RXDLYSRESETDONE := true;
                 GTP.RXSYNCDONE := true; GTP.RXPMARESETDONE := true;
                 GTP.DRPRDY := true; GTP.DRPDO := 0x0FFF;
                 GTP.rx_data := 0; GTP.rx_ctrl := 0; GTP.rx_code_error := 0 |}
  = GTP.drp_bus Scenario.gtp_READY (Scenario.gtp_inputs true false false true 0 0 0).
Proof.
  apply (external_drp_never_served
           Scenario.gtp_READY (Scenario.gtp_inputs true false false true 0 0 0));
    reflexivity.
Defined.

Lemma non_tx_edges_keep_gpio (p : GTP.params) (trace : list GTP.edge) (s : GTP.state) :
  forallb not_tx_edge trace = true ->
  GTP.tx_gpio_en_sync (GTP.run p trace s) = GTP.tx_gpio_en_sync s
  /\ GTP.tx_gpio_sync (GTP.run p trace s) = GTP.tx_gpio_sync s.
Proof.
  revert s. induction trace as [|e trace IH]; intros s H; [split; reflexivity|].
  cbn [forallb] in H. apply andb_true_iff in H. destruct H as [He Ht].
  change (GTP.run p (e :: trace) s) with (GTP.run p trace (GTP.step p s e)).
  destruct (IH (GTP.step p s e) Ht) as [-> ->].
  destruct e as [i|i|i]; [split; reflexivity | split; reflexivity | discriminate].
Qed.

(** X21: the transmit mode follows the [tx_gpio_en] input with a latency
    of two edges of [tx], however the edges of the other domains fall
    in between: after the second edge the mode is the one the flag asked
    for at the first, and in raw mode every bit of [tx_data] is the
    [tx_gpio] of that first edge. *)
Theorem gpio_mode_after_two_tx_edges
        (p : GTP.params) (s : GTP.state) (i1 i2 i : GTP.inputs)
        (between after : list GTP.edge) :
  forallb not_tx_edge between = true ->
  forallb not_tx_edge after = true ->
  GTP.tx_enable_8b10b
    (GTP.tx_datapath
       (GTP.run p (GTP.Edge_tx i1 :: between ++ GTP.Edge_tx i2 :: after) s) i)
    = negb (GTP.tx_gpio_en i1)
  /\ (GTP.tx_gpio_en i1 = true ->
      forall k, 0 <= k < 16 ->
        Z.testbit
          (GTP.tx_data
             (GTP.tx_datapath
                (GTP.run p (GTP.Edge_tx i1 :: between ++ GTP.Edge_tx i2 :: after) s) i))
          k
        = GTP.tx_gpio i1).
Proof.
  intros Hb Ha.
  assert (Hsync :
    FFSynchronizer.o
      (GTP.tx_gpio_en_sync
         (GTP.run p (GTP.Edge_tx i1 :: between ++ GTP.Edge_tx i2 :: after) s))
      = GTP.tx_gpio_en i1
    /\ FFSynchronizer.o
         (GTP.tx_gpio_sync
            (GTP.run p (GTP.Edge_tx i1 :: between ++ GTP.Edge_tx i2 :: after) s))
       = GTP.tx_gpio i1).
  { assert (Hrun : GTP.run p (GTP.Edge_tx i1 :: between ++ GTP.Edge_tx i2 :: after) s
                   = GTP.run p after
                       (GTP.tick_tx (GTP.run p between (GTP.tick_tx s i1)) i2)).
    { unfold GTP.run. cbn [fold_left]. rewrite fold_left_app. reflexivity. }
    rewrite Hrun.
    destruct (non_tx_edges_keep_gpio p after
                (GTP.tick_tx (GTP.run p between (GTP.tick_tx s i1)) i2) Ha) as [-> ->].
    destruct (non_tx_edges_keep_gpio p between (GTP.tick_tx s i1) Hb) as [E1 E2].
    unfold FFSynchronizer.o.
    change (FFSynchronizer.stage1
              (GTP.tx_gpio_en_sync
                 (GTP.tick_tx (GTP.run p between (GTP.tick_tx s i1)) i2)))
      with (FFSynchronizer.stage0
              (GTP.tx_gpio_en_sync (GTP.run p between (GTP.tick_tx s i1)))).
    change (FFSynchronizer.stage1
              (GTP.tx_gpio_sync
                 (GTP.tick_tx (GTP.run p between (GTP.tick_tx s i1)) i2)))
      with (FFSynchronizer.stage0
              (GTP.tx_gpio_sync (GTP.run p between (GTP.tick_tx s i1)))).
    rewrite E1, E2. split; reflexivity. }
  destruct Hsync as [Hen Hbit].
  unfold GTP.tx_datapath. rewrite Hen, Hbit. split.
  - destruct (GTP.tx_gpio_en i1); reflexivity.
  - intros -> k Hk. cbn [GTP.tx_data].
    change (8 * Z.of_nat GTP.nwords) with 16. change (8 * GTP.nwords)%nat with 16%nat.
    unfold trunc.
    pose proof (Repl_range (GTP.tx_gpio i1) 16) as R. change (Z.of_nat 16) with 16 in R.
    rewrite Z.mod_small by lia. apply Repl_testbit. lia.
Qed.

Lemma gpio_mode_after_two_tx_edges_witness :
  GTP.tx_enable_8b10b
    (GTP.tx_datapath
       (GTP.run Scenario.params
                (GTP.Edge_tx (Scenario.gtp_inputs true true true true 0 0 0)
                 :: [GTP.Edge_ss (Scenario.gtp_inputs true false false true 0 0 0)]
                 ++ GTP.Edge_tx (Scenario.gtp_inputs true false false true 0 0 0)
                 :: [GTP.Edge_sync (Scenario.gtp_inputs true false false true 0 0 0)])
                (GTP.reset_state Scenario.params))
       (Scenario.gtp_inputs true false false true 0 0 0))
    = negb true.
Proof.
  apply (gpio_mode_after_two_tx_edges
           Scenario.params (GTP.reset_state Scenario.params)
           (Scenario.gtp_inputs true true true true 0 0 0)
           (Scenario.gtp_inputs true false false true 0 0 0)
           (Scenario.gtp_inputs true false false true 0 0 0)
           [GTP.Edge_ss (Scenario.gtp_inputs true false false true 0 0 0)]
           [GTP.Edge_sync (Scenario.gtp_inputs true false false true 0 0 0)]);
    reflexivity.
Defined.

End GTPBehaviour.
